(** * The Dynamo frame-evaluation dispatch ([eval_frame_cpp.cpp])

    A shallow embedding of [dynamo__custom_eval_frame], the entry point that
    the interpreter calls in place of its default frame evaluation once
    TorchDynamo is installed, together with the properties of it that the
    design document states.

    The dispatch is a straight-line, re-entrant piece of code that reads and
    writes three pieces of process state (the active eval-frame callback, the
    per-code-object [ExtraState] and the Python error indicator) and calls out
    to collaborators that live in other translation units: default frame
    evaluation, evaluation of a compiled code object, guard lookup and the
    compiler callback.  It is modelled as a function in a small monad that
    threads the process state, records every effect of the dispatch in a
    trace, and can get stuck where the C++ would dereference a dangling
    [ExtraState*]. *)

From stdpp Require Import gmap strings list.

(** ** Python objects

    [PyObject*] values are only ever compared by address.  The four
    singletons the dispatch tests for get a constructor each; every other
    object is [PyObj] of its address.  A null pointer is [None] of
    [option PyObject]. *)

Inductive PyObject : Type :=
| Py_None
| Py_False
| skip_code_recursive_flag
| cache_limit_hit_flag
| PyObj (addr : positive).

#[global] Instance PyObject_eq_dec : EqDecision PyObject.
Proof. solve_decision. Defined.

(** A [PyCodeObject*] used as the key of the per-routine storage slot. *)
Abbreviation Code := positive (only parsing).

(** ** Execution strategy ([FrameExecStrategy]) *)

Inductive FrameAction : Type := DEFAULT | SKIP | RUN_ONLY.

#[global] Instance FrameAction_eq_dec : EqDecision FrameAction.
Proof. solve_decision. Defined.

Record FrameExecStrategy : Type :=
  { cur_action : FrameAction; recursive_action : FrameAction }.

#[global] Instance FrameExecStrategy_eq_dec : EqDecision FrameExecStrategy.
Proof. solve_decision. Defined.

(** ** Frames, cache entries, extra state *)

Abbreviation FrameLocalsMapping := (list PyObject) (only parsing).

Record THP_EVAL_API_FRAME_OBJECT : Type :=
  { f_code : Code;
    f_locals : FrameLocalsMapping;
    f_globals : PyObject;
    f_builtins : PyObject }.

Abbreviation Frame := THP_EVAL_API_FRAME_OBJECT (only parsing).

#[global] Instance Frame_eq_dec : EqDecision Frame.
Proof. solve_decision. Defined.

Definition F_CODE (frame : Frame) : Code := f_code frame.

(** A cache entry keeps the object the compiler returned (guards, compiled
    code and trace annotation are read off it) and the backend it was
    compiled for. *)
Record CacheEntry : Type :=
  { guarded_code : PyObject; entry_backend : PyObject }.

#[global] Instance CacheEntry_eq_dec : EqDecision CacheEntry.
Proof. solve_decision. Defined.

(** Call counters and thresholds; the dispatch only passes it on. *)
Abbreviation FrameState := (list (string * PyObject)) (only parsing).

(** An [ExtraState] object.  [extra_addr] is the address of the object, what
    an [ExtraState*] to it holds: a record put in a routine's slot in place
    of another one is a different object even when its content is the
    same. *)
Record ExtraState : Type :=
  { extra_addr : positive;
    cache_entry_list : list CacheEntry;
    frame_state : FrameState;
    strategy : FrameExecStrategy }.

(** An [ExtraState*]: the address it holds, and the code object in whose
    slot the object was found (a live [ExtraState] is attached to exactly one
    code object). *)
Record ExtraStatePtr : Type :=
  { ptr_code : Code; ptr_addr : positive }.

(** ** Process state

    [eval_frame_callback] is the process-wide active callback register,
    [extra_states] the per-code-object scratch slot, [err] the Python error
    indicator, and [interp] stands for the rest of the interpreter, which only
    the collaborators read and write. *)

Record Host : Type :=
  { eval_frame_callback : PyObject;
    extra_states : gmap positive ExtraState;
    is_skip_guard_eval_unsafe : bool;
    err : option (string * string);
    interp : nat }.

Definition with_callback (cb : PyObject) (h : Host) : Host :=
  {| eval_frame_callback := cb;
     extra_states := extra_states h;
     is_skip_guard_eval_unsafe := is_skip_guard_eval_unsafe h;
     err := err h;
     interp := interp h |}.

Definition with_extra_states (m : gmap positive ExtraState) (h : Host) : Host :=
  {| eval_frame_callback := eval_frame_callback h;
     extra_states := m;
     is_skip_guard_eval_unsafe := is_skip_guard_eval_unsafe h;
     err := err h;
     interp := interp h |}.

Definition with_err (e : option (string * string)) (h : Host) : Host :=
  {| eval_frame_callback := eval_frame_callback h;
     extra_states := extra_states h;
     is_skip_guard_eval_unsafe := is_skip_guard_eval_unsafe h;
     err := e;
     interp := interp h |}.

(** ** Collaborators

    Code the dispatch calls but does not contain.  Each may run arbitrary
    Python, nested frames included, so each is a transformer of the whole
    process state. *)

Class Collaborators : Type :=
  { (** the interpreter's own frame evaluation *)
    dynamo_eval_frame_default :
      Frame -> bool -> Host -> option PyObject * Host;
    (** run a compiled code object in place of the frame's own code *)
    dynamo_eval_custom_code :
      Frame -> PyObject -> string -> bool -> Host -> option PyObject * Host;
    (** guard lookup; the two out-parameters [maybe_cached_code] and
        [trace_annotation] are returned *)
    lookup :
      Code -> FrameLocalsMapping -> PyObject -> bool -> Host ->
      (option PyObject * string) * Host;
    (** the compiler callback *)
    dynamo_call_callback :
      PyObject -> Frame -> FrameLocalsMapping -> list CacheEntry ->
      FrameState -> Host -> option PyObject * Host;
    get_backend : PyObject -> PyObject;
    CacheEntry_get_code : CacheEntry -> PyObject;
    CacheEntry_get_trace_annotation : CacheEntry -> string;
    clear_old_frame_if_python_312_plus : Frame -> Host -> Host;
    (** the allocator: the address at which the next [ExtraState] is
        created *)
    new_ExtraState : Host -> positive }.

(** ** Effects of one dispatch

    What the dispatch itself does, in order.  Events of calls that run Python
    also record the active callback those calls start under. *)

Inductive Event : Type :=
| EvInitExtraState (c : Code)
| EvSetExecStrategy (c : Code) (s : FrameExecStrategy)
| EvCallbackSet (cb : PyObject)
| EvLookup (c : Code) (backend : PyObject) (active : PyObject)
    (maybe_cached_code : option PyObject)
| EvCallCallback (cb : PyObject) (frame : Frame) (active : PyObject)
    (callback_result : option PyObject)
| EvCreateCacheEntry (c : Code) (e : CacheEntry)
| EvEvalDefault (frame : Frame) (throw_flag : bool) (active : PyObject)
| EvEvalCustom (frame : Frame) (cached_code : PyObject)
    (trace_annotation : string) (throw_flag : bool) (active : PyObject)
| EvErrSetString (exc : string) (msg : string)
| EvClearFrame (frame : Frame).

#[global] Instance Event_eq_dec : EqDecision Event.
Proof. solve_decision. Defined.

(** ** The dispatch monad

    A computation maps the process state to the trace of its effects and
    either a value with the new state, or [None] when it is stuck. *)

Definition M (A : Type) : Type := Host -> list Event * option (A * Host).

Definition ret {A} (a : A) : M A := fun h => ([], Some (a, h)).

Definition bind {A B} (m : M A) (k : A -> M B) : M B :=
  fun h =>
    match m h with
    | (t1, None) => (t1, None)
    | (t1, Some ah) =>
        match k (fst ah) (snd ah) with
        | (t2, o) => (t1 ++ t2, o)
        end
    end.

Declare Scope dispatch_scope.
Delimit Scope dispatch_scope with M.
Notation "x <- m ;; k" := (bind m (fun x => k))
  (at level 100, m at next level, k at level 200, right associativity)
  : dispatch_scope.
Notation "m ;; k" := (bind m (fun _ => k))
  (at level 100, k at level 200, right associativity) : dispatch_scope.
Open Scope dispatch_scope.

Definition emit (e : Event) : M unit := fun h => ([e], Some (tt, h)).
Definition gets {A} (f : Host -> A) : M A := fun h => ([], Some (f h, h)).
Definition modify (f : Host -> Host) : M unit := fun h => ([], Some (tt, f h)).
Definition undefined {A} : M A := fun _ => ([], None).

(** ** The per-routine store, the callback register, the error indicator *)

(** The strategy of a routine nothing has been decided about. *)
Definition initial_strategy : FrameExecStrategy :=
  {| cur_action := DEFAULT; recursive_action := DEFAULT |}.

(** A new record, created at address [a]. *)
Definition fresh_extra_state (a : positive) : ExtraState :=
  {| extra_addr := a;
     cache_entry_list := [];
     frame_state := [];
     strategy := initial_strategy |}.

(** Writes into a record; the object stays the same. *)
Definition with_strategy (s : FrameExecStrategy) (e : ExtraState) : ExtraState :=
  {| extra_addr := extra_addr e;
     cache_entry_list := cache_entry_list e;
     frame_state := frame_state e;
     strategy := s |}.

Definition with_new_entry (new_cache_entry : CacheEntry) (e : ExtraState)
  : ExtraState :=
  {| extra_addr := extra_addr e;
     cache_entry_list := new_cache_entry :: cache_entry_list e;
     frame_state := frame_state e;
     strategy := strategy e |}.

(** Storing a record in the slot of code object [c]. *)
Definition update_extra (c : Code) (e : ExtraState) (h : Host) : Host :=
  with_extra_states (<[c := e]> (extra_states h)) h.

(** Modelled from the spec: [get_extra_state] of extra_state.cpp, which is
    not part of this file.  It returns the pointer to the Extra State
    attached to the routine identity, or null when none has been created. *)
Definition get_extra_state (c : Code) : M (option ExtraStatePtr) :=
  gets (fun h => match extra_states h !! c with
                 | Some e => Some {| ptr_code := c; ptr_addr := extra_addr e |}
                 | None => None
                 end).

(** Reading through an [ExtraState*].  The pointer is the one taken when the
    dispatch started; it is good as long as the object it points to is still
    the one in the routine's slot.  When a collaborator has destroyed the
    object since, or has put another one in its place, the C++ is undefined
    and the model is stuck. *)
Definition deref_extra (extra : ExtraStatePtr) : M ExtraState :=
  fun h => match extra_states h !! ptr_code extra with
           | Some e =>
               if decide (extra_addr e = ptr_addr extra)
               then ([], Some (e, h))
               else ([], None)
           | None => ([], None)
           end.

(** Modelled from the spec: [extra_state_get_exec_strategy] of
    extra_state.cpp, reading the record's Execution Strategy. *)
Definition extra_state_get_exec_strategy (extra : ExtraStatePtr)
  : M FrameExecStrategy :=
  e <- deref_extra extra ;; ret (strategy e).

(** Modelled from the spec: [extra_state_set_exec_strategy] of
    extra_state.cpp, overwriting the record's Execution Strategy. *)
Definition extra_state_set_exec_strategy (extra : ExtraStatePtr)
    (s : FrameExecStrategy) : M unit :=
  e <- deref_extra extra ;;
  emit (EvSetExecStrategy (ptr_code extra) s) ;;
  modify (update_extra (ptr_code extra) (with_strategy s e)).

(** Modelled from the spec: [extract_cache_entry] of extra_state.cpp, the
    record's sequence of Cache Entries, most recently installed first. *)
Definition extract_cache_entry (extra : ExtraStatePtr) : M (list CacheEntry) :=
  e <- deref_extra extra ;; ret (cache_entry_list e).

(** Modelled from the spec: [extract_frame_state] of extra_state.cpp, the
    record's Frame State. *)
Definition extract_frame_state (extra : ExtraStatePtr)
  : M (list (string * PyObject)) :=
  e <- deref_extra extra ;; ret (frame_state e).

(** Modelled from the spec: [create_cache_entry] of extra_state.cpp.  It
    builds the entry for what the compiler returned and installs it in front
    of the record's entries. *)
Definition create_cache_entry (extra : ExtraStatePtr)
    (callback_result backend : PyObject) : M CacheEntry :=
  e <- deref_extra extra ;;
  let new_cache_entry :=
    {| guarded_code := callback_result; entry_backend := backend |} in
  emit (EvCreateCacheEntry (ptr_code extra) new_cache_entry) ;;
  modify (update_extra (ptr_code extra) (with_new_entry new_cache_entry e)) ;;
  ret new_cache_entry.

(** Modelled from the spec: [eval_frame_callback_set] of eval_frame.c, the
    setter of the process-wide active callback register. *)
Definition eval_frame_callback_set (cb : PyObject) : M unit :=
  emit (EvCallbackSet cb) ;; modify (with_callback cb).

(** [PyErr_SetString] of the CPython API. *)
Definition PyErr_SetString (exc msg : string) : M unit :=
  emit (EvErrSetString exc msg) ;; modify (with_err (Some (exc, msg))).

Definition skip_guard_eval_unsafe_message : string :=
  ("Recompilation triggered with skip_guard_eval_unsafe stance. " ++
   "This usually means that you have not warmed up your model " ++
   "with enough inputs such that you can guarantee no more recompilations.")%string.

(** ** The dispatch *)

Section Dispatch.
Context `{!Collaborators}.

(** Modelled from the spec: [init_and_set_extra_state] of extra_state.cpp.
    It creates a new record (no cache entries, an empty frame state, the
    initial strategy (DEFAULT, DEFAULT)), attaches it to the routine and
    returns the pointer to it. *)
Definition init_and_set_extra_state (c : Code) : M ExtraStatePtr :=
  a <- gets new_ExtraState ;;
  emit (EvInitExtraState c) ;;
  modify (update_extra c (fresh_extra_state a)) ;;
  ret {| ptr_code := c; ptr_addr := a |}.

(** Calls into the collaborators, each recorded in the trace. *)

Definition call_eval_frame_default (frame : Frame) (throw_flag : bool)
  : M (option PyObject) :=
  fun h =>
    ([EvEvalDefault frame throw_flag (eval_frame_callback h)],
     Some (dynamo_eval_frame_default frame throw_flag h)).

Definition call_eval_custom_code (frame : Frame) (cached_code : PyObject)
    (trace_annotation : string) (throw_flag : bool) : M (option PyObject) :=
  fun h =>
    ([EvEvalCustom frame cached_code trace_annotation throw_flag
        (eval_frame_callback h)],
     Some (dynamo_eval_custom_code frame cached_code trace_annotation
             throw_flag h)).

Definition call_lookup (extra : ExtraStatePtr) (locals : list PyObject)
    (backend : PyObject) : M (option PyObject * string) :=
  fun h =>
    let r := lookup (ptr_code extra) locals backend
               (is_skip_guard_eval_unsafe h) h in
    ([EvLookup (ptr_code extra) backend (eval_frame_callback h) (fst (fst r))],
     Some r).

Definition call_callback (callback : PyObject) (frame : Frame)
    (locals : list PyObject) (cache_entry : list CacheEntry)
    (frame_state : list (string * PyObject)) : M (option PyObject) :=
  fun h =>
    let r := dynamo_call_callback callback frame locals cache_entry
               frame_state h in
    ([EvCallCallback callback frame (eval_frame_callback h) (fst r)], Some r).

(** The three exit lambdas of [dynamo__custom_eval_frame]; what they
    capture by reference is passed in, and [eval_result] is returned.
    Debug tracing and checks, the profiler bracket around the lookup and
    reference counting have no counterpart here. *)

Definition eval_default (frame : Frame) (throw_flag : bool)
    (callback recursive_callback : PyObject) : M (option PyObject) :=
  eval_frame_callback_set recursive_callback ;;
  eval_result <- call_eval_frame_default frame throw_flag ;;
  (if decide (callback <> recursive_callback)
   then eval_frame_callback_set callback
   else ret tt) ;;
  ret eval_result.

Definition eval_custom (frame : Frame) (throw_flag : bool)
    (callback recursive_callback : PyObject) (cached_code : PyObject)
    (trace_annotation : string) : M (option PyObject) :=
  eval_frame_callback_set recursive_callback ;;
  eval_result <- call_eval_custom_code frame cached_code trace_annotation
                   throw_flag ;;
  (if decide (callback <> recursive_callback)
   then eval_frame_callback_set callback
   else ret tt) ;;
  emit (EvClearFrame frame) ;;
  modify (clear_old_frame_if_python_312_plus frame) ;;
  ret eval_result.

Definition fail (frame : Frame) : M unit :=
  emit (EvClearFrame frame) ;;
  modify (clear_old_frame_if_python_312_plus frame).

Definition dynamo__custom_eval_frame (frame : Frame) (throw_flag : bool)
    (callback : PyObject) : M (option PyObject) :=
  if throw_flag then
    call_eval_frame_default frame throw_flag
  else
    (* callback to run on recursively invoked frames *)
    let recursive_callback := callback in
    extra <- get_extra_state (F_CODE frame) ;;
    if decide (callback = Py_False /\ extra = None) then
      eval_default frame throw_flag callback recursive_callback
    else
      (* create cache *)
      extra <- match extra with
               | None => init_and_set_extra_state (F_CODE frame)
               | Some extra => ret extra
               end ;;
      (* Get recursive action *)
      strategy <- extra_state_get_exec_strategy extra ;;
      let recursive_callback :=
        if decide (cur_action strategy <> DEFAULT) then
          if decide (recursive_action strategy = SKIP) then Py_None
          else if decide (recursive_action strategy = RUN_ONLY) then Py_False
          else recursive_callback
        else recursive_callback in
      (* Skip this frame *)
      if decide (cur_action strategy = SKIP) then
        eval_default frame throw_flag callback recursive_callback
      else
        (* default and run-only mode require guard eval *)
        let locals := f_locals frame in
        let backend := get_backend callback in
        eval_frame_callback_set Py_None ;;
        found <- call_lookup extra locals backend ;;
        let maybe_cached_code := fst found in
        let trace_annotation := snd found in
        let run_only :=
          bool_decide (cur_action strategy = RUN_ONLY \/ callback = Py_False) in
        match maybe_cached_code with
        | None =>
            (* guard eval failed, keep propagating *)
            fail frame ;; ret None
        | Some cached_code =>
            if decide (cached_code <> Py_None) then
              (* used cached version *)
              eval_custom frame throw_flag callback recursive_callback
                cached_code trace_annotation
            else
              (* cache miss *)
              unsafe <- gets is_skip_guard_eval_unsafe ;;
              if unsafe then
                PyErr_SetString "RuntimeError" skip_guard_eval_unsafe_message ;;
                fail frame ;; ret None
              else if run_only then
                eval_default frame throw_flag callback recursive_callback
              else
                (* call callback *)
                cache_entry <- extract_cache_entry extra ;;
                frame_state <- extract_frame_state extra ;;
                callback_result <-
                  call_callback callback frame locals cache_entry frame_state ;;
                match callback_result with
                | None =>
                    (* internal exception: custom behavior is intentionally
                       not re-enabled *)
                    fail frame ;; ret None
                | Some callback_result =>
                    if decide (callback_result = skip_code_recursive_flag) then
                      extra_state_set_exec_strategy extra
                        {| cur_action := SKIP; recursive_action := SKIP |} ;;
                      let recursive_callback :=
                        if decide (recursive_action strategy = DEFAULT)
                        then Py_None else recursive_callback in
                      eval_default frame throw_flag callback recursive_callback
                    else if decide (callback_result = cache_limit_hit_flag) then
                      extra_state_set_exec_strategy extra
                        {| cur_action := RUN_ONLY; recursive_action := RUN_ONLY |} ;;
                      let recursive_callback :=
                        if decide (recursive_action strategy = DEFAULT)
                        then Py_False else recursive_callback in
                      eval_default frame throw_flag callback recursive_callback
                    else if decide (callback_result <> Py_None) then
                      new_cache_entry <-
                        create_cache_entry extra callback_result backend ;;
                      let cached_code := CacheEntry_get_code new_cache_entry in
                      let trace_annotation :=
                        CacheEntry_get_trace_annotation new_cache_entry in
                      eval_custom frame throw_flag callback recursive_callback
                        cached_code trace_annotation
                    else
                      extra_state_set_exec_strategy extra
                        {| cur_action := SKIP; recursive_action := DEFAULT |} ;;
                      eval_default frame throw_flag callback recursive_callback
                end
        end.

(** A sequence of top-level invocations, as the interpreter makes them one
    after the other. *)

Record Invocation : Type :=
  { inv_frame : Frame; inv_throw_flag : bool; inv_callback : PyObject }.

Fixpoint run_invocations (calls : list Invocation)
  : M (list (option PyObject)) :=
  match calls with
  | [] => ret []
  | i :: rest =>
      r <- dynamo__custom_eval_frame (inv_frame i) (inv_throw_flag i)
             (inv_callback i) ;;
      rs <- run_invocations rest ;;
      ret (r :: rs)
  end.

(** *** Vocabulary for the statements *)

(** The state in which the dispatch looks at the strategy: the record is
    created on the way if the routine had none. *)
Definition ensure_extra_state (c : Code) (h : Host) : Host :=
  match extra_states h !! c with
  | Some _ => h
  | None => update_extra c (fresh_extra_state (new_ExtraState h)) h
  end.

(** The pointer the dispatch holds for an invocation of [c]: to the record
    the routine has, or to the one created for it. *)
Definition entry_pointer (c : Code) (h : Host) : ExtraStatePtr :=
  {| ptr_code := c;
     ptr_addr := match extra_states h !! c with
                 | Some e => extra_addr e
                 | None => new_ExtraState h
                 end |}.

Definition init_trace (c : Code) (h : Host) : list Event :=
  match extra_states h !! c with
  | Some _ => []
  | None => [EvInitExtraState c]
  end.

(** The strategy the dispatch reads for an invocation of [c]. *)
Definition entry_strategy (c : Code) (h : Host) : FrameExecStrategy :=
  match extra_states h !! c with
  | Some e => strategy e
  | None => initial_strategy
  end.

Definition strategy_of (c : Code) (h : Host) : option FrameExecStrategy :=
  strategy <$> extra_states h !! c.

(** The callback for nested frames that the stored strategy selects
    (lines 109-117 of the source). *)
Definition strategy_recursive_callback (s : FrameExecStrategy)
    (callback : PyObject) : PyObject :=
  if decide (cur_action s <> DEFAULT) then
    if decide (recursive_action s = SKIP) then Py_None
    else if decide (recursive_action s = RUN_ONLY) then Py_False
    else callback
  else callback.

(** The guard lookup of an invocation that gets as far as line 142. *)
Definition guard_lookup (frame : Frame) (callback : PyObject) (h : Host)
  : (option PyObject * string) * Host :=
  let h0 := with_callback Py_None (ensure_extra_state (F_CODE frame) h) in
  lookup (F_CODE frame) (f_locals frame) (get_backend callback)
    (is_skip_guard_eval_unsafe h0) h0.

(** The run of a genuine cache miss up to the return of the compiler
    callback: the part the cases of the protocol have in common. *)
Definition miss_prefix (frame : Frame) (callback : PyObject) (h h1 : Host)
    (callback_result : option PyObject) : list Event :=
  init_trace (F_CODE frame) h ++
  [EvCallbackSet Py_None;
   EvLookup (F_CODE frame) (get_backend callback) Py_None (Some Py_None);
   EvCallCallback callback frame (eval_frame_callback h1) callback_result].

(** What the two executing exits leave behind once the routine has run. *)
Definition restore_trace (callback recursive_callback : PyObject)
  : list Event :=
  if decide (callback <> recursive_callback) then [EvCallbackSet callback]
  else [].

Definition restore_host (callback recursive_callback : PyObject) (h : Host)
  : Host :=
  if decide (callback <> recursive_callback) then with_callback callback h
  else h.

(** The pointer [p] is good in state [h], and the object it points to holds
    [e]: the routine's slot still has the object at the pointer's address. *)
Definition points_to (p : ExtraStatePtr) (h : Host) (e : ExtraState) : Prop :=
  extra_states h !! ptr_code p = Some e /\ extra_addr e = ptr_addr p.

(** No collaborator that a dispatch in run-only or skip mode can reach
    resets the strategy stored for [c]: the strategy is not cleared from
    outside. *)
Definition keeps_strategy (c : Code) : Prop :=
  (forall frame t h,
      strategy_of c (dynamo_eval_frame_default frame t h).2 = strategy_of c h)
  /\ (forall frame code a t h,
        strategy_of c (dynamo_eval_custom_code frame code a t h).2 =
          strategy_of c h)
  /\ (forall c' l b u h, strategy_of c (lookup c' l b u h).2 = strategy_of c h)
  /\ (forall frame h,
        strategy_of c (clear_old_frame_if_python_312_plus frame h) =
          strategy_of c h).

(** Weakest precondition of a computation, for stepping through it. *)
Definition wp {A} (m : M A) (h : Host)
    (Q : list Event -> option (A * Host) -> Prop) : Prop :=
  Q (m h).1 (m h).2.

End Dispatch.

(** Putting a trace in front of a run. *)
Definition prepend {A} (t : list Event) (r : list Event * option (A * Host))
  : list Event * option (A * Host) :=
  (t ++ r.1, r.2).

(** ** Reading traces *)

Definition is_call_callback (e : Event) : bool :=
  match e with EvCallCallback _ _ _ _ => true | _ => false end.

Definition is_set_exec_strategy (e : Event) : bool :=
  match e with EvSetExecStrategy _ _ => true | _ => false end.

Definition is_eval_default (e : Event) : bool :=
  match e with EvEvalDefault _ _ _ => true | _ => false end.

Definition is_callback_set_or_exec (e : Event) : bool :=
  match e with
  | EvCallbackSet _ | EvEvalDefault _ _ _ | EvEvalCustom _ _ _ _ _ => true
  | _ => false
  end.

(** How often the compiler callback was invoked. *)
Definition compiler_invocations (tr : list Event) : nat :=
  length (List.filter is_call_callback tr).

(** The active callback a routine (original or compiled) started under. *)
Definition exec_active (e : Event) : option PyObject :=
  match e with
  | EvEvalDefault _ _ a | EvEvalCustom _ _ _ _ a => Some a
  | _ => None
  end.

(** The events after the guard lookup, if there was one. *)
Fixpoint after_lookup (tr : list Event) : option (list Event) :=
  match tr with
  | [] => None
  | EvLookup _ _ _ _ :: post => Some post
  | _ :: tr => after_lookup tr
  end.

(** The event just before the guard lookup, if there was one. *)
Fixpoint before_lookup (prev : option Event) (tr : list Event) : option Event :=
  match tr with
  | [] => None
  | EvLookup _ _ _ _ :: _ => prev
  | e :: tr => before_lookup (Some e) tr
  end.

(** Every write of an Execution Strategy, with the event just before it. *)
Fixpoint strategy_writes (prev : option Event) (tr : list Event)
  : list (option Event * Code * FrameExecStrategy) :=
  match tr with
  | [] => []
  | EvSetExecStrategy c s :: tr =>
      (prev, c, s) :: strategy_writes (Some (EvSetExecStrategy c s)) tr
  | e :: tr => strategy_writes (Some e) tr
  end.

(** The strategy that a sentinel result of the compiler callback installs
    (section 4.3 of the design document). *)
Definition sentinel_strategy (callback_result : PyObject)
  : option FrameExecStrategy :=
  match callback_result with
  | skip_code_recursive_flag =>
      Some {| cur_action := SKIP; recursive_action := SKIP |}
  | cache_limit_hit_flag =>
      Some {| cur_action := RUN_ONLY; recursive_action := RUN_ONLY |}
  | Py_None => Some {| cur_action := SKIP; recursive_action := DEFAULT |}
  | _ => None
  end.

(** A strategy write is justified when it is made on the record of the
    frame's own routine, right after the compiler callback returned the
    sentinel that stands for the strategy written. *)
Definition justified_write (frame : Frame)
    (w : option Event * Code * FrameExecStrategy) : Prop :=
  w.1.2 = F_CODE frame /\
  exists cb a r,
    w.1.1 = Some (EvCallCallback cb frame a (Some r)) /\
    sentinel_strategy r = Some w.2.

(** The callback a sentinel result forces on nested frames. *)
Definition sentinel_callback (callback_result : PyObject) : option PyObject :=
  match callback_result with
  | skip_code_recursive_flag => Some Py_None
  | cache_limit_hit_flag => Some Py_False
  | _ => None
  end.

(** The object the compiler callback returned in a run, if it was called
    and did not fail. *)
Fixpoint callback_result_of (tr : list Event) : option PyObject :=
  match tr with
  | [] => None
  | EvCallCallback _ _ _ r :: _ => r
  | _ :: tr => callback_result_of tr
  end.

(** The nested-call callback of an invocation: the supplied callback, unless
    the strategy read on entry or a sentinel result of the compiler callback
    overrides it.  Outside DEFAULT mode the stored recursive action selects
    it.  In DEFAULT mode a skip-recursive or budget-exhausted result forces
    its sentinel, but only when the stored recursive action is DEFAULT. *)
Definition nested_callback (s : FrameExecStrategy) (callback : PyObject)
    (callback_result : option PyObject) : PyObject :=
  match cur_action s with
  | DEFAULT =>
      match callback_result ≫= sentinel_callback with
      | Some forced =>
          match recursive_action s with
          | DEFAULT => forced
          | _ => callback
          end
      | None => callback
      end
  | _ =>
      match recursive_action s with
      | SKIP => Py_None
      | RUN_ONLY => Py_False
      | DEFAULT => callback
      end
  end.

(** The three ways the callback register is handled after the guard lookup,
    for the supplied callback and the nested-call callback [rc]: not written
    at all, or set to [rc] for the execution of the routine and put back to
    the supplied callback afterwards when the two differ. *)
Inductive post_lookup_discipline (callback rc : PyObject)
  : list Event -> Prop :=
| pld_failure_exit : post_lookup_discipline callback rc []
| pld_exec_same e :
    rc = callback ->
    exec_active e = Some rc ->
    post_lookup_discipline callback rc [EvCallbackSet rc; e]
| pld_exec_other e :
    rc <> callback ->
    exec_active e = Some rc ->
    post_lookup_discipline callback rc
      [EvCallbackSet rc; e; EvCallbackSet callback].

(** ** A scripted world

    Concrete collaborators for running the dispatch: the guard lookup scans
    the routine's entries for one compiled for the backend asked for (or
    raises when [guard_raises]); the compiler answers by [compiler]; running
    a frame yields an object and leaves the process state alone. *)

Definition scan_entries (entries : list CacheEntry) (backend : PyObject)
  : option CacheEntry :=
  List.find (fun e => bool_decide (entry_backend e = backend)) entries.

Definition scripted (guard_raises : bool)
    (compiler : PyObject -> option PyObject) : Collaborators :=
  {| dynamo_eval_frame_default := fun _ _ h => (Some (PyObj 90), h);
     dynamo_eval_custom_code := fun _ code _ _ h => (Some code, h);
     lookup := fun c _ backend _ h =>
       if guard_raises then ((None, ""%string), h)
       else
         match extra_states h !! c with
         | Some e =>
             match scan_entries (cache_entry_list e) backend with
             | Some ce => ((Some (guarded_code ce), "compiled"%string), h)
             | None => ((Some Py_None, ""%string), h)
             end
         | None => ((Some Py_None, ""%string), h)
         end;
     dynamo_call_callback := fun cb _ _ _ _ h => (compiler cb, h);
     get_backend := fun cb => cb;
     CacheEntry_get_code := guarded_code;
     CacheEntry_get_trace_annotation := fun _ => "compiled"%string;
     clear_old_frame_if_python_312_plus := fun _ h => h;
     new_ExtraState := fun _ => 1%positive |}.

Definition host0 : Host :=
  {| eval_frame_callback := PyObj 1;
     extra_states := ∅;
     is_skip_guard_eval_unsafe := false;
     err := None;
     interp := 0 |}.

Definition frame1 : Frame :=
  {| f_code := 7%positive;
     f_locals := [PyObj 20];
     f_globals := PyObj 30;
     f_builtins := PyObj 31 |}.

Definition extra_with (entries : list CacheEntry) (s : FrameExecStrategy)
  : ExtraState :=
  {| extra_addr := 1;
     cache_entry_list := entries;
     frame_state := [];
     strategy := s |}.

(** [host0] where routine 7 has the given record. *)
Definition host_with (e : ExtraState) : Host := update_extra 7%positive e host0.

Definition host_unsafe (e : ExtraState) : Host :=
  {| eval_frame_callback := PyObj 1;
     extra_states := {[ 7%positive := e ]};
     is_skip_guard_eval_unsafe := true;
     err := None;
     interp := 0 |}.

Definition skip_skip : FrameExecStrategy :=
  {| cur_action := SKIP; recursive_action := SKIP |}.
Definition run_run : FrameExecStrategy :=
  {| cur_action := RUN_ONLY; recursive_action := RUN_ONLY |}.
Definition default_default : FrameExecStrategy :=
  {| cur_action := DEFAULT; recursive_action := DEFAULT |}.
(** A strategy the dispatch never writes; it can only come from outside. *)
Definition default_skip : FrameExecStrategy :=
  {| cur_action := DEFAULT; recursive_action := SKIP |}.

Definition world_skip_recursive : Collaborators :=
  scripted false (fun _ => Some skip_code_recursive_flag).
Definition world_compiles : Collaborators :=
  scripted false (fun _ => Some (PyObj 50)).
Definition world_compiler_fails : Collaborators :=
  scripted false (fun _ => None).
Definition world_guard_raises : Collaborators :=
  scripted true (fun _ => None).

(** The state of the first call of routine 7 when its guard lookup
    returns. *)
Definition host1 : Host :=
  with_callback Py_None (update_extra 7%positive (fresh_extra_state 1) host0).

Definition entry50 : CacheEntry :=
  {| guarded_code := PyObj 50; entry_backend := PyObj 1 |}.

Definition call1 : Invocation :=
  {| inv_frame := frame1; inv_throw_flag := false; inv_callback := PyObj 1 |}.

Definition call1_run_only : Invocation :=
  {| inv_frame := frame1; inv_throw_flag := false; inv_callback := Py_False |}.

(** ** Further vocabulary: counting effects, reading records *)

Definition is_eval_custom (e : Event) : bool :=
  match e with EvEvalCustom _ _ _ _ _ => true | _ => false end.

Definition is_clear_frame (e : Event) : bool :=
  match e with EvClearFrame _ => true | _ => false end.

Definition is_lookup (e : Event) : bool :=
  match e with EvLookup _ _ _ _ => true | _ => false end.

Definition is_create_cache_entry (e : Event) : bool :=
  match e with EvCreateCacheEntry _ _ => true | _ => false end.

(** How many events of a kind a trace has. *)
Definition count_events (f : Event -> bool) (tr : list Event) : nat :=
  length (List.filter f tr).

(** Every installation of a cache entry, with the event just before it. *)
Fixpoint entry_writes (prev : option Event) (tr : list Event)
  : list (option Event * Code * CacheEntry) :=
  match tr with
  | [] => []
  | EvCreateCacheEntry c e :: tr =>
      (prev, c, e) :: entry_writes (Some (EvCreateCacheEntry c e)) tr
  | e :: tr => entry_writes (Some e) tr
  end.

(** The cache entries and the frame state stored for a routine; a routine
    without a record has none, like a routine with a new record. *)
Definition entries_of (c : Code) (h : Host) : list CacheEntry :=
  match extra_states h !! c with
  | Some e => cache_entry_list e
  | None => []
  end.

Definition frame_state_of (c : Code) (h : Host) : list (string * PyObject) :=
  match extra_states h !! c with
  | Some e => frame_state e
  | None => []
  end.

Section MoreVocabulary.
Context `{!Collaborators}.

(** An installation is justified when it is made on the record of the
    frame's own routine, right after the compiler callback returned an object
    that is no sentinel, and the entry pairs that object with the backend of
    the supplied callback. *)
Definition justified_entry (frame : Frame) (callback : PyObject)
    (w : option Event * Code * CacheEntry) : Prop :=
  w.1.2 = F_CODE frame /\
  exists a r,
    w.1.1 = Some (EvCallCallback callback frame a (Some r)) /\
    sentinel_strategy r = None /\
    w.2 = {| guarded_code := r; entry_backend := get_backend callback |}.

(** The [ExtraState] object in the slot of [c] is the same in both states:
    it was neither destroyed nor replaced, whatever was written into it. *)
Definition same_object (c : Code) (h h' : Host) : Prop :=
  (extra_addr <$> extra_states h' !! c) = (extra_addr <$> extra_states h !! c).

(** Guard lookup and the compiler callback neither destroy nor replace the
    [ExtraState] object of [c]. *)
Definition keeps_record (c : Code) : Prop :=
  (forall c' l b u h, same_object c h (lookup c' l b u h).2)
  /\ (forall cb frame l ce fs h,
        same_object c h (dynamo_call_callback cb frame l ce fs h).2).

(** No collaborator writes the per-routine store. *)
Definition store_stable : Prop :=
  (forall frame t h,
      extra_states (dynamo_eval_frame_default frame t h).2 = extra_states h)
  /\ (forall frame code a t h,
        extra_states (dynamo_eval_custom_code frame code a t h).2 =
          extra_states h)
  /\ (forall c l b u h, extra_states (lookup c l b u h).2 = extra_states h)
  /\ (forall cb frame l ce fs h,
        extra_states (dynamo_call_callback cb frame l ce fs h).2 =
          extra_states h)
  /\ (forall frame h,
        extra_states (clear_old_frame_if_python_312_plus frame h) =
          extra_states h).

(** What a run may have done to the record of [c]: entries were only put in
    front, at most one per compiler invocation, and the frame state is the
    same. *)
Definition record_grows (c : Code) (h h' : Host) (tr : list Event) : Prop :=
  (exists new,
      entries_of c h' = new ++ entries_of c h /\
      length new <= compiler_invocations tr)
  /\ frame_state_of c h' = frame_state_of c h.

End MoreVocabulary.

(** A routine that opted out itself but not the routines it calls. *)
Definition skip_default : FrameExecStrategy :=
  {| cur_action := SKIP; recursive_action := DEFAULT |}.

(** * Properties *)

(** ** Stepping through a computation *)

Section Stepping.
Context `{!Collaborators}.

Lemma wp_run {A} (m : M A) h (r : list Event * option (A * Host)) :
  wp m h (fun t o => (t, o) = r) -> m h = r.
Proof. unfold wp. by destruct (m h). Qed.

Lemma wp_bind {A B} (m : M A) (k : A -> M B) h Q :
  wp m h (fun t1 o1 =>
    match o1 with
    | None => Q t1 None
    | Some ah => wp (k ah.1) ah.2 (fun t2 o2 => Q (t1 ++ t2) o2)
    end) ->
  wp (bind m k) h Q.
Proof.
  unfold wp, bind. destruct (m h) as [t1 [ah|]]; simpl; [|done].
  by destruct (k ah.1 ah.2).
Qed.

(** Sequencing with an intermediate assertion. *)
Lemma wp_bind_post {A B} (m : M A) (k : A -> M B) h
    (P : list Event -> option (A * Host) -> Prop) Q :
  wp m h P ->
  (forall t1, P t1 None -> Q t1 None) ->
  (forall t1 a h1, P t1 (Some (a, h1)) ->
     wp (k a) h1 (fun t2 o2 => Q (t1 ++ t2) o2)) ->
  wp (bind m k) h Q.
Proof.
  intros Hm Hnone Hsome. apply wp_bind. unfold wp in *.
  destruct (m h) as [t1 [[a h1]|]]; simpl in *; auto.
Qed.

Lemma wp_ret {A} (a : A) h Q : Q [] (Some (a, h)) -> wp (ret a) h Q.
Proof. done. Qed.

Lemma wp_emit e h Q : Q [e] (Some (tt, h)) -> wp (emit e) h Q.
Proof. done. Qed.

Lemma wp_gets {A} (f : Host -> A) h Q :
  Q [] (Some (f h, h)) -> wp (gets f) h Q.
Proof. done. Qed.

Lemma wp_modify f h Q : Q [] (Some (tt, f h)) -> wp (modify f) h Q.
Proof. done. Qed.

Lemma wp_deref_extra p h Q :
  match extra_states h !! ptr_code p with
  | Some e =>
      if decide (extra_addr e = ptr_addr p)
      then Q [] (Some (e, h))
      else Q [] None
  | None => Q [] None
  end ->
  wp (deref_extra p) h Q.
Proof.
  unfold wp, deref_extra.
  destruct (extra_states h !! ptr_code p); [|done].
  by destruct (decide _).
Qed.

Lemma wp_call_eval_frame_default frame t h Q :
  Q [EvEvalDefault frame t (eval_frame_callback h)]
    (Some (dynamo_eval_frame_default frame t h)) ->
  wp (call_eval_frame_default frame t) h Q.
Proof. done. Qed.

Lemma wp_call_eval_custom_code frame c a t h Q :
  Q [EvEvalCustom frame c a t (eval_frame_callback h)]
    (Some (dynamo_eval_custom_code frame c a t h)) ->
  wp (call_eval_custom_code frame c a t) h Q.
Proof. done. Qed.

Lemma wp_call_lookup p l b h Q :
  Q [EvLookup (ptr_code p) b (eval_frame_callback h)
       (lookup (ptr_code p) l b (is_skip_guard_eval_unsafe h) h).1.1]
    (Some (lookup (ptr_code p) l b (is_skip_guard_eval_unsafe h) h)) ->
  wp (call_lookup p l b) h Q.
Proof. done. Qed.

Lemma wp_call_callback cb frame l ce fs h Q :
  Q [EvCallCallback cb frame (eval_frame_callback h)
       (dynamo_call_callback cb frame l ce fs h).1]
    (Some (dynamo_call_callback cb frame l ce fs h)) ->
  wp (call_callback cb frame l ce fs) h Q.
Proof. done. Qed.

End Stepping.

Ltac wp_unfold :=
  unfold eval_default, eval_custom, fail,
    extra_state_set_exec_strategy, extra_state_get_exec_strategy,
    extract_cache_entry, extract_frame_state, create_cache_entry,
    init_and_set_extra_state, get_extra_state, eval_frame_callback_set,
    PyErr_SetString.

Ltac wp_simpl :=
  cbv beta iota;
  cbn [fst snd eval_frame_callback extra_states is_skip_guard_eval_unsafe
       err interp with_callback with_err with_extra_states update_extra
       ptr_code ptr_addr extra_addr fresh_extra_state with_strategy
       with_new_entry].

(** One step: [tac] gets a chance to close a branch that the hypotheses rule
    out each time the step splits on a condition. *)
Ltac wp_step tac :=
  lazymatch goal with
  | |- wp (bind _ _) _ _ => apply wp_bind
  | |- wp (ret _) _ _ => apply wp_ret
  | |- wp (emit _) _ _ => apply wp_emit
  | |- wp (gets _) _ _ => apply wp_gets
  | |- wp (modify _) _ _ => apply wp_modify
  | |- wp (deref_extra _) _ _ => apply wp_deref_extra
  | |- wp (call_eval_frame_default _ _) _ _ => apply wp_call_eval_frame_default
  | |- wp (call_eval_custom_code _ _ _ _) _ _ => apply wp_call_eval_custom_code
  | |- wp (call_lookup _ _ _) _ _ => apply wp_call_lookup
  | |- wp (call_callback _ _ _ _ _) _ _ => apply wp_call_callback
  | |- wp (if bool_decide ?P then _ else _) _ _ =>
      destruct (bool_decide_reflect P); try solve [tac]
  | |- wp (if ?c then _ else _) _ _ => destruct c; try solve [tac]
  | |- wp (match ?c with _ => _ end) _ _ => destruct c eqn:?; try solve [tac]
  | |- wp (let x := _ in _) _ _ => cbv zeta
  | |- wp _ _ _ => progress wp_unfold
  | |- match ?c with _ => _ end => destruct c eqn:?; try solve [tac]
  end; wp_simpl.

Ltac wp_go tac := repeat (wp_step tac).

(** Stepping with the facts known about the path: [pre] rewrites with them
    before each step. *)
Ltac wp_path pre tac := repeat (pre; wp_simpl; wp_step tac).

Ltac absurd_branch :=
  exfalso;
  repeat match goal with
         | H : _ /\ _ |- _ => destruct H
         | H : ~ (_ \/ _) |- _ => apply Decidable.not_or in H
         end;
  simplify_eq /=; first [ done | tauto | congruence | intuition congruence ].

Section Paths.
Context `{!Collaborators}.

(** The default exit: set the register to the nested-call callback, run
    the routine, put the supplied callback back if it differs. *)
Lemma eval_default_run frame t callback rc h :
  eval_default frame t callback rc h =
    ([EvCallbackSet rc; EvEvalDefault frame t rc] ++ restore_trace callback rc,
     Some ((dynamo_eval_frame_default frame t (with_callback rc h)).1,
           restore_host callback rc
             (dynamo_eval_frame_default frame t (with_callback rc h)).2)).
Proof.
  apply wp_run. unfold restore_trace, restore_host.
  wp_go idtac; reflexivity.
Qed.

(** The specialized exit: the same discipline around the compiled code,
    then the original frame is retired. *)
Lemma eval_custom_run frame t callback rc code annot h :
  eval_custom frame t callback rc code annot h =
    ([EvCallbackSet rc; EvEvalCustom frame code annot t rc] ++
       restore_trace callback rc ++ [EvClearFrame frame],
     Some ((dynamo_eval_custom_code frame code annot t (with_callback rc h)).1,
           clear_old_frame_if_python_312_plus frame
             (restore_host callback rc
                (dynamo_eval_custom_code frame code annot t
                   (with_callback rc h)).2))).
Proof.
  apply wp_run. unfold restore_trace, restore_host.
  wp_go idtac; reflexivity.
Qed.

Lemma fail_run frame h :
  fail frame h =
    ([EvClearFrame frame],
     Some (tt, clear_old_frame_if_python_312_plus frame h)).
Proof. reflexivity. Qed.

End Paths.

Ltac start_run :=
  apply wp_run; unfold dynamo__custom_eval_frame; wp_simpl.

(** Resolve the test [cur_action s <> DEFAULT] once the action is known to be
    DEFAULT. *)
Ltac solve_cur Hcur :=
  match goal with
  | |- context [decide (cur_action ?s <> DEFAULT)] =>
      let Hx := fresh in
      destruct (decide (cur_action s <> DEFAULT)) as [Hx|_];
      [ exfalso; apply Hx; first [ exact Hcur | reflexivity ] | ]
  end.

Ltac run_done :=
  cbn [app]; rewrite <- ?surjective_pairing; reflexivity.

(** Bring a hypothesis on the guard lookup into the form in which the lookup
    shows up while stepping. *)
Ltac norm_lookup Hlk Hextra :=
  unfold guard_lookup, ensure_extra_state in Hlk;
  rewrite ?Hextra in Hlk; wp_simpl; cbn [fst snd eval_frame_callback
    extra_states is_skip_guard_eval_unsafe err interp with_callback with_err
    with_extra_states update_extra] in Hlk.

Section Claims.
Context `{!Collaborators}.

(** C4: when the unwind ([throw_flag]) flag is set, the dispatch hands the
    call to default execution at once.  Its only effect is that one call,
    made on the process state exactly as it came in, and the result and
    final state are the ones default execution produced: no Extra State is
    created, no guard lookup is made, the compiler callback is not invoked
    and nothing is written, whatever the strategy stored for the routine
    is. *)
Theorem C4_throw_flag_bypasses_interception frame callback h :
  dynamo__custom_eval_frame frame true callback h =
    ([EvEvalDefault frame true (eval_frame_callback h)],
     Some (dynamo_eval_frame_default frame true h)).
Proof. reflexivity. Qed.

(** C8: if the Interception Callback is the sentinel that the fast path at
    line 98 tests for ([Py_False]) and the routine has no Extra State yet,
    the dispatch default-executes without creating any: the routine runs on
    the incoming state with only the callback register written, and that
    state still has no record for the routine. *)
Theorem C8_run_only_fast_path frame callback h :
  callback = Py_False ->
  extra_states h !! F_CODE frame = None ->
  dynamo__custom_eval_frame frame false callback h =
    ([EvCallbackSet Py_False; EvEvalDefault frame false Py_False],
     Some (dynamo_eval_frame_default frame false (with_callback Py_False h)))
  /\ extra_states (with_callback Py_False h) !! F_CODE frame = None.
Proof.
  intros -> Hnone. split; [|done].
  start_run.
  wp_path ltac:(rewrite ?Hnone) ltac:(exfalso; tauto).
  run_done.
Qed.


(** C5: when the routine has Extra State and guard lookup for the current
    locals returns a match, the compiler callback is not invoked, whatever
    the unwind flag and the strategy are; and unless the call is unwinding
    or the routine is skipped, the matched code object and its trace
    annotation are the ones the compiled code is run with, inside the
    callback save and restore of the specialized exit. *)
Theorem C5_cache_hit frame throw_flag callback h e code annot h1 :
  extra_states h !! F_CODE frame = Some e ->
  guard_lookup frame callback h = ((Some code, annot), h1) ->
  code <> Py_None ->
  let rc := strategy_recursive_callback (strategy e) callback in
  let run := dynamo__custom_eval_frame frame throw_flag callback h in
  let ran := dynamo_eval_custom_code frame code annot false
               (with_callback rc h1) in
  compiler_invocations run.1 = 0 /\
  (throw_flag = false -> cur_action (strategy e) <> SKIP ->
   run =
     ([EvCallbackSet Py_None;
       EvLookup (F_CODE frame) (get_backend callback) Py_None (Some code);
       EvCallbackSet rc;
       EvEvalCustom frame code annot false rc] ++
        restore_trace callback rc ++ [EvClearFrame frame],
      Some (ran.1,
            clear_old_frame_if_python_312_plus frame
              (restore_host callback rc ran.2)))).
Proof.
  intros Hextra Hlk Hcode rc run ran.
  norm_lookup Hlk Hextra.
  assert (throw_flag = false -> cur_action (strategy e) <> SKIP ->
          run =
     ([EvCallbackSet Py_None;
       EvLookup (F_CODE frame) (get_backend callback) Py_None (Some code);
       EvCallbackSet rc;
       EvEvalCustom frame code annot false rc] ++
        restore_trace callback rc ++ [EvClearFrame frame],
      Some (ran.1,
            clear_old_frame_if_python_312_plus frame
              (restore_host callback rc ran.2)))) as Hrun.
  { intros -> Hskip. subst run ran rc.
    unfold strategy_recursive_callback, restore_trace, restore_host.
    start_run.
    wp_path ltac:(rewrite ?Hextra, ?Hlk) ltac:(absurd_branch).
    all: run_done. }
  split; [|done].
  destruct throw_flag; [done|].
  destruct (decide (cur_action (strategy e) = SKIP)) as [Hskip|Hskip].
  - subst run.
    change (wp (dynamo__custom_eval_frame frame false callback) h
              (fun t _ => compiler_invocations t = 0)).
    unfold dynamo__custom_eval_frame.
    wp_path ltac:(rewrite ?Hextra) ltac:(absurd_branch); done.
  - rewrite Hrun by done. simpl.
    unfold restore_trace. by destruct (decide _).
Qed.

(** C6: a cache miss while the unsafe skip-guard-eval mode is active fails
    at once.  The dispatch sets the diagnostic [RuntimeError], retires the
    frame and returns failure; the compiler callback is not invoked, no
    Execution Strategy is written and nothing is executed instead. *)
Theorem C6_miss_under_skip_guard_eval_unsafe frame callback h annot h1 :
  ~ (callback = Py_False /\ extra_states h !! F_CODE frame = None) ->
  cur_action (entry_strategy (F_CODE frame) h) <> SKIP ->
  guard_lookup frame callback h = ((Some Py_None, annot), h1) ->
  is_skip_guard_eval_unsafe h1 = true ->
  let run := dynamo__custom_eval_frame frame false callback h in
  run =
    (init_trace (F_CODE frame) h ++
     [EvCallbackSet Py_None;
      EvLookup (F_CODE frame) (get_backend callback) Py_None (Some Py_None);
      EvErrSetString "RuntimeError" skip_guard_eval_unsafe_message;
      EvClearFrame frame],
     Some (None,
           clear_old_frame_if_python_312_plus frame
             (with_err (Some ("RuntimeError"%string,
                              skip_guard_eval_unsafe_message)) h1)))
  /\ compiler_invocations run.1 = 0
  /\ List.filter is_set_exec_strategy run.1 = []
  /\ List.filter is_callback_set_or_exec run.1 = [EvCallbackSet Py_None].
Proof.
  intros Hfast Hskip Hlk Hunsafe run.
  assert (run =
    (init_trace (F_CODE frame) h ++
     [EvCallbackSet Py_None;
      EvLookup (F_CODE frame) (get_backend callback) Py_None (Some Py_None);
      EvErrSetString "RuntimeError" skip_guard_eval_unsafe_message;
      EvClearFrame frame],
     Some (None,
           clear_old_frame_if_python_312_plus frame
             (with_err (Some ("RuntimeError"%string,
                              skip_guard_eval_unsafe_message)) h1)))) as ->.
  { subst run. unfold entry_strategy, init_trace in *.
    destruct (extra_states h !! F_CODE frame) as [e|] eqn:Hextra;
      norm_lookup Hlk Hextra; start_run.
    - wp_path ltac:(rewrite ?Hextra, ?Hlk, ?Hunsafe) ltac:(absurd_branch).
      all: run_done.
    - wp_path ltac:(rewrite ?Hextra, ?Hlk, ?Hunsafe, ?lookup_insert_eq)
        ltac:(absurd_branch).
      all: run_done. }
  split; [done|]. unfold init_trace.
  by destruct (extra_states h !! F_CODE frame).
Qed.


(** C7: when the compiler callback fails internally, the dispatch retires
    the frame and returns the failure.  After the guard lookup it writes
    neither the callback register (the supplied callback is not put back)
    nor any Execution Strategy, and it installs no cache entry: the state it
    returns is the one the callback left, passed through the frame
    clean-up, so the records of all routines are as the callback left
    them.  (The guard lookup is taken to leave the routine's [ExtraState]
    object in place: the dispatch reads the cache entries for the compiler
    through the pointer it holds.) *)
Theorem C7_compiler_failure frame callback h annot h1 e1 h2 :
  callback <> Py_False ->
  cur_action (entry_strategy (F_CODE frame) h) = DEFAULT ->
  guard_lookup frame callback h = ((Some Py_None, annot), h1) ->
  is_skip_guard_eval_unsafe h1 = false ->
  extra_states h1 !! F_CODE frame = Some e1 ->
  extra_addr e1 = ptr_addr (entry_pointer (F_CODE frame) h) ->
  dynamo_call_callback callback frame (f_locals frame) (cache_entry_list e1)
    (frame_state e1) h1 = (None, h2) ->
  let run := dynamo__custom_eval_frame frame false callback h in
  run =
    (miss_prefix frame callback h h1 None ++ [EvClearFrame frame],
     Some (None, clear_old_frame_if_python_312_plus frame h2))
  /\ (forall post, after_lookup run.1 = Some post ->
        List.filter is_callback_set_or_exec post = [] /\
        List.filter is_set_exec_strategy post = []).
Proof.
  intros Hcb Hcur Hlk Hunsafe Hextra1 Haddr1 Hcall run.
  assert (run =
    (miss_prefix frame callback h h1 None ++ [EvClearFrame frame],
     Some (None, clear_old_frame_if_python_312_plus frame h2))) as ->.
  { subst run.
    unfold entry_strategy, entry_pointer, miss_prefix, init_trace in *.
    destruct (extra_states h !! F_CODE frame) as [e|] eqn:Hextra;
      norm_lookup Hlk Hextra; cbn [ptr_addr] in Haddr1; start_run.
    - wp_path ltac:(rewrite ?Hextra, ?Hlk, ?Hunsafe, ?Hextra1, ?Hcall)
        ltac:(absurd_branch).
      all: run_done.
    - wp_path ltac:(rewrite ?Hextra, ?Hlk, ?Hunsafe, ?Hextra1, ?Hcall,
                      ?lookup_insert_eq)
        ltac:(absurd_branch).
      all: run_done. }
  split; [done|]. unfold miss_prefix, init_trace.
  destruct (extra_states h !! F_CODE frame); simpl; intros post [= <-]; done.
Qed.

(** C1: on a genuine cache miss with full interception enabled (the
    supplied callback is not the run-only sentinel, the routine's current
    action is DEFAULT, guard lookup finds nothing and the unsafe
    skip-guard-eval mode is off) the dispatch calls the compiler callback
    and acts on its result by case.  Internal failure: the failure is
    returned and no strategy is written.  Skip-recursive sentinel: the
    strategy becomes (SKIP, SKIP) and the original routine is run by default
    evaluation.  Budget-exhausted sentinel: the strategy becomes (RUN_ONLY,
    RUN_ONLY) and the original routine is run by default evaluation.  Any
    other object except [Py_None]: a cache entry for it is installed in
    front, and the code of that entry is run with its trace annotation in
    place of the routine.  [Py_None]: the strategy becomes (SKIP, DEFAULT)
    and the original routine is run by default evaluation.  In the two
    recursive cases the nested frames run under the disabled, respectively
    the run-only, sentinel only if the recursive action read on entry was
    DEFAULT; otherwise, and in the other cases, under the supplied callback.
    The writes go through the pointer the dispatch took on entry, so the
    guard lookup and the compiler callback are taken to leave the routine's
    [ExtraState] object in place. *)
Theorem C1_callback_protocol frame callback h annot h1 e1 result h2 e2 :
  let c := F_CODE frame in
  let pre := entry_strategy c h in
  let extra := entry_pointer c h in
  callback <> Py_False ->
  cur_action pre = DEFAULT ->
  guard_lookup frame callback h = ((Some Py_None, annot), h1) ->
  is_skip_guard_eval_unsafe h1 = false ->
  points_to extra h1 e1 ->
  dynamo_call_callback callback frame (f_locals frame) (cache_entry_list e1)
    (frame_state e1) h1 = (result, h2) ->
  (result <> None -> points_to extra h2 e2) ->
  let prefix := miss_prefix frame callback h h1 result in
  let run := dynamo__custom_eval_frame frame false callback h in
  let skip_skip := {| cur_action := SKIP; recursive_action := SKIP |} in
  let run_run := {| cur_action := RUN_ONLY; recursive_action := RUN_ONLY |} in
  let skip_default := {| cur_action := SKIP; recursive_action := DEFAULT |} in
  (result = None ->
     run = (prefix ++ [EvClearFrame frame],
            Some (None, clear_old_frame_if_python_312_plus frame h2)))
  /\ (result = Some skip_code_recursive_flag ->
      let rc := if decide (recursive_action pre = DEFAULT)
                then Py_None else callback in
      let h3 := update_extra c (with_strategy skip_skip e2) h2 in
      let ran := dynamo_eval_frame_default frame false (with_callback rc h3) in
      strategy_of c h3 = Some skip_skip /\
      run = (prefix ++
             [EvSetExecStrategy c skip_skip; EvCallbackSet rc;
              EvEvalDefault frame false rc] ++ restore_trace callback rc,
             Some (ran.1, restore_host callback rc ran.2)))
  /\ (result = Some cache_limit_hit_flag ->
      let rc := if decide (recursive_action pre = DEFAULT)
                then Py_False else callback in
      let h3 := update_extra c (with_strategy run_run e2) h2 in
      let ran := dynamo_eval_frame_default frame false (with_callback rc h3) in
      strategy_of c h3 = Some run_run /\
      run = (prefix ++
             [EvSetExecStrategy c run_run; EvCallbackSet rc;
              EvEvalDefault frame false rc] ++ restore_trace callback rc,
             Some (ran.1, restore_host callback rc ran.2)))
  /\ (forall r, result = Some r ->
      r <> skip_code_recursive_flag -> r <> cache_limit_hit_flag ->
      r <> Py_None ->
      let new_cache_entry :=
        {| guarded_code := r; entry_backend := get_backend callback |} in
      let h3 := update_extra c (with_new_entry new_cache_entry e2) h2 in
      let ran := dynamo_eval_custom_code frame
                   (CacheEntry_get_code new_cache_entry)
                   (CacheEntry_get_trace_annotation new_cache_entry) false
                   (with_callback callback h3) in
      (cache_entry_list <$> extra_states h3 !! c) =
        Some (new_cache_entry :: cache_entry_list e2) /\
      strategy_of c h3 = strategy_of c h2 /\
      run = (prefix ++
             [EvCreateCacheEntry c new_cache_entry; EvCallbackSet callback;
              EvEvalCustom frame (CacheEntry_get_code new_cache_entry)
                (CacheEntry_get_trace_annotation new_cache_entry) false
                callback;
              EvClearFrame frame],
             Some (ran.1, clear_old_frame_if_python_312_plus frame ran.2)))
  /\ (result = Some Py_None ->
      let h3 := update_extra c (with_strategy skip_default e2) h2 in
      let ran := dynamo_eval_frame_default frame false
                   (with_callback callback h3) in
      strategy_of c h3 = Some skip_default /\
      run = (prefix ++
             [EvSetExecStrategy c skip_default; EvCallbackSet callback;
              EvEvalDefault frame false callback],
             Some ran)).
Proof.
  intros c pre extra Hcb Hcur Hlk Hunsafe [Hextra1 Haddr1] Hcall Hextra2
    prefix run skip_skip run_run skip_default.
  subst prefix run pre extra c.
  unfold entry_strategy, entry_pointer, points_to, miss_prefix, init_trace,
    strategy_of in *.
  cbn [ptr_code ptr_addr] in *.
  destruct (extra_states h !! F_CODE frame) as [e|] eqn:Hextra;
    norm_lookup Hlk Hextra.
  all: repeat apply conj.
  all: try (intros ->); try (intros r -> Hr1 Hr2 Hr3); cbv zeta.
  all: try (destruct (Hextra2 ltac:(done)) as [Hextra2' Haddr2]).
  all: repeat match goal with
         | |- _ /\ _ => split;
             [ cbn [update_extra extra_states with_extra_states];
               rewrite ?lookup_insert_eq; try rewrite Hextra2'; reflexivity | ]
         end.
  all: unfold restore_trace, restore_host; start_run.
  all: wp_path
         ltac:(cbn [cur_action recursive_action strategy fresh_extra_state
                    initial_strategy];
               rewrite ?Hextra, ?Hlk, ?Hunsafe, ?Hextra1, ?Hcall, ?Hextra2',
                 ?lookup_insert_eq;
               try solve_cur Hcur)
         ltac:(absurd_branch).
  all: simpl in *;
    repeat (destruct (decide _); try (exfalso; done || congruence));
    run_done.
Qed.

(** *** Routines that are not in DEFAULT mode *)

Lemma strategy_of_with_callback c cb h :
  strategy_of c (with_callback cb h) = strategy_of c h.
Proof. reflexivity. Qed.

Lemma strategy_of_with_err c e h :
  strategy_of c (with_err e h) = strategy_of c h.
Proof. reflexivity. Qed.

Lemma compiler_invocations_app t1 t2 :
  compiler_invocations (t1 ++ t2) =
    compiler_invocations t1 + compiler_invocations t2.
Proof.
  unfold compiler_invocations. by rewrite List.filter_app, length_app.
Qed.

(** One invocation of a routine whose current action is SKIP or RUN_ONLY:
    it returns, the compiler is not called, no strategy is written, and the
    strategy is still there afterwards unless a collaborator cleared it. *)
Lemma dispatch_non_default frame throw_flag callback h s :
  keeps_strategy (F_CODE frame) ->
  strategy_of (F_CODE frame) h = Some s ->
  cur_action s <> DEFAULT ->
  wp (dynamo__custom_eval_frame frame throw_flag callback) h
    (fun t o =>
       compiler_invocations t = 0 /\
       List.filter is_set_exec_strategy t = [] /\
       exists r h', o = Some (r, h') /\ strategy_of (F_CODE frame) h' = Some s).
Proof.
  intros (Kd & Kc & Kl & Kf) Hs Hcur.
  unfold strategy_of in Hs.
  destruct (extra_states h !! F_CODE frame) as [e|] eqn:Hextra; [|done].
  injection Hs as <-.
  assert (strategy_of (F_CODE frame) h = Some (strategy e)) as Hh
    by (unfold strategy_of; by rewrite Hextra).
  unfold dynamo__custom_eval_frame.
  destruct throw_flag.
  { wp_go idtac. split; [reflexivity|]. split; [reflexivity|].
    eexists _, _. split; [apply f_equal, surjective_pairing|]. by rewrite Kd. }
  wp_path ltac:(rewrite ?Hextra)
    ltac:(first [ absurd_branch
                | exfalso; destruct (cur_action (strategy e));
                  intuition congruence ]).
  all: split; [reflexivity|]; split; [reflexivity|].
  all: eexists _, _; split; [reflexivity|].
  all: rewrite ?Kf, ?strategy_of_with_callback, ?strategy_of_with_err,
         ?Kd, ?Kc, ?strategy_of_with_callback, ?Kl; done.
Qed.

(** One invocation under the run-only sentinel: it returns and the
    compiler is not called. *)
Lemma dispatch_run_only_callback frame throw_flag h :
  wp (dynamo__custom_eval_frame frame throw_flag Py_False) h
    (fun t o => compiler_invocations t = 0 /\ is_Some o).
Proof.
  unfold dynamo__custom_eval_frame.
  destruct (extra_states h !! F_CODE frame) as [e|] eqn:Hextra.
  - wp_path ltac:(rewrite ?Hextra) ltac:(absurd_branch).
    all: split; [reflexivity|by eexists].
  - wp_path ltac:(rewrite ?Hextra) ltac:(absurd_branch).
    all: split; [reflexivity|by eexists].
Qed.

(** Any number of invocations under the run-only sentinel. *)
Lemma run_invocations_run_only_callback calls :
  Forall (fun i => inv_callback i = Py_False) calls ->
  forall h,
    wp (run_invocations calls) h
      (fun t o => compiler_invocations t = 0 /\ is_Some o).
Proof.
  induction 1 as [|i calls Hi _ IH]; intros h; simpl.
  - apply wp_ret. by eauto.
  - eapply wp_bind_post.
    + rewrite Hi. apply dispatch_run_only_callback.
    + intros t1 [_ []%is_Some_None].
    + intros t1 r h1 [Ht1 _]. simpl.
      eapply wp_bind_post; [apply IH|..].
      * intros t2 [_ []%is_Some_None].
      * intros t2 rs h2 [Ht2 _]. apply wp_ret.
        rewrite !compiler_invocations_app, Ht1, Ht2. by eauto.
Qed.

(** Any number of invocations of a routine whose current action is SKIP or
    RUN_ONLY. *)
Lemma run_invocations_non_default c s calls :
  keeps_strategy c ->
  cur_action s <> DEFAULT ->
  Forall (fun i => F_CODE (inv_frame i) = c) calls ->
  forall h,
    strategy_of c h = Some s ->
    wp (run_invocations calls) h
      (fun t o =>
         compiler_invocations t = 0 /\
         List.filter is_set_exec_strategy t = [] /\
         exists rs h', o = Some (rs, h') /\ strategy_of c h' = Some s).
Proof.
  intros Hkeep Hcur. induction 1 as [|i calls Hi _ IH]; intros h Hs; simpl.
  - apply wp_ret. eauto 10.
  - eapply wp_bind_post.
    + apply (dispatch_non_default _ _ _ _ s); rewrite ?Hi; done.
    + intros t1 (_ & _ & r & h1 & [=] & _).
    + intros t1 r h1 (Ht1 & Hw1 & r' & h1' & [= <- <-] & Hs1). simpl.
      rewrite Hi in Hs1.
      eapply wp_bind_post; [apply (IH _ Hs1)|..].
      * intros t2 (_ & _ & rs & h2 & [=] & _).
      * intros t2 rs h2 (Ht2 & Hw2 & rs' & h2' & [= <- <-] & Hs2).
        apply wp_ret.
        rewrite !compiler_invocations_app, !List.filter_app, Ht1, Ht2,
          Hw1, Hw2.
        eauto 10.
Qed.

(** One invocation of a routine whose current action is RUN_ONLY. *)
Lemma dispatch_run_only_strategy frame throw_flag callback h e :
  extra_states h !! F_CODE frame = Some e ->
  cur_action (strategy e) = RUN_ONLY ->
  wp (dynamo__custom_eval_frame frame throw_flag callback) h
    (fun t o => compiler_invocations t = 0 /\ is_Some o).
Proof.
  intros Hextra Hcur. unfold dynamo__custom_eval_frame.
  wp_path ltac:(rewrite ?Hextra) ltac:(absurd_branch).
  all: split; [reflexivity|by eexists].
Qed.

(** C2 (amended): in every invocation whose supplied callback is the
    run-only sentinel, or whose routine has current action RUN_ONLY, the
    dispatch returns without invoking the compiler callback.  On a cache
    miss it runs the original routine by default evaluation when the unsafe
    skip-guard-eval mode is not active; when that mode is active it fails
    with the diagnostic [RuntimeError] and runs nothing.  The compiler
    callback stays uninvoked over any number of invocations made under the
    run-only sentinel, and over any number of invocations of a routine in
    RUN_ONLY whose strategy is not cleared from outside. *)
Theorem C2_run_only_never_compiles :
  (forall frame throw_flag callback h,
     callback = Py_False \/
       cur_action (entry_strategy (F_CODE frame) h) = RUN_ONLY ->
     let run := dynamo__custom_eval_frame frame throw_flag callback h in
     compiler_invocations run.1 = 0 /\ is_Some run.2)
  /\ (forall frame callback h e annot h1,
       callback = Py_False \/ cur_action (strategy e) = RUN_ONLY ->
       extra_states h !! F_CODE frame = Some e ->
       cur_action (strategy e) <> SKIP ->
       guard_lookup frame callback h = ((Some Py_None, annot), h1) ->
       is_skip_guard_eval_unsafe h1 = false ->
       let rc := strategy_recursive_callback (strategy e) callback in
       let ran := dynamo_eval_frame_default frame false (with_callback rc h1) in
       dynamo__custom_eval_frame frame false callback h =
         ([EvCallbackSet Py_None;
           EvLookup (F_CODE frame) (get_backend callback) Py_None
             (Some Py_None);
           EvCallbackSet rc;
           EvEvalDefault frame false rc] ++ restore_trace callback rc,
          Some (ran.1, restore_host callback rc ran.2)))
  /\ (forall frame callback h e annot h1,
       callback = Py_False \/ cur_action (strategy e) = RUN_ONLY ->
       extra_states h !! F_CODE frame = Some e ->
       cur_action (strategy e) <> SKIP ->
       guard_lookup frame callback h = ((Some Py_None, annot), h1) ->
       is_skip_guard_eval_unsafe h1 = true ->
       dynamo__custom_eval_frame frame false callback h =
         ([EvCallbackSet Py_None;
           EvLookup (F_CODE frame) (get_backend callback) Py_None
             (Some Py_None);
           EvErrSetString "RuntimeError" skip_guard_eval_unsafe_message;
           EvClearFrame frame],
          Some (None,
                clear_old_frame_if_python_312_plus frame
                  (with_err (Some ("RuntimeError"%string,
                                   skip_guard_eval_unsafe_message)) h1))))
  /\ (forall calls h,
       Forall (fun i => inv_callback i = Py_False) calls ->
       compiler_invocations (run_invocations calls h).1 = 0 /\
       is_Some (run_invocations calls h).2)
  /\ (forall c s calls h,
       keeps_strategy c ->
       strategy_of c h = Some s ->
       cur_action s = RUN_ONLY ->
       Forall (fun i => F_CODE (inv_frame i) = c) calls ->
       compiler_invocations (run_invocations calls h).1 = 0 /\
       is_Some (run_invocations calls h).2).
Proof.
  repeat apply conj.
  - intros frame throw_flag callback h Hmode run. subst run.
    unfold entry_strategy in Hmode.
    destruct (extra_states h !! F_CODE frame) as [e|] eqn:Hextra.
    + destruct Hmode as [->|Hcur].
      * apply dispatch_run_only_callback.
      * by apply (dispatch_run_only_strategy _ _ _ _ e).
    + destruct Hmode as [->|Hcur]; [|done].
      apply dispatch_run_only_callback.
  - intros frame callback h e annot h1 Hmode Hextra Hskip Hlk Hunsafe rc ran.
    subst ran rc. norm_lookup Hlk Hextra.
    unfold strategy_recursive_callback, restore_trace, restore_host.
    start_run.
    wp_path ltac:(rewrite ?Hextra, ?Hlk, ?Hunsafe) ltac:(absurd_branch).
    all: run_done.
  - intros frame callback h e annot h1 Hmode Hextra Hskip Hlk Hunsafe.
    norm_lookup Hlk Hextra.
    start_run.
    wp_path ltac:(rewrite ?Hextra, ?Hlk, ?Hunsafe) ltac:(absurd_branch).
    all: run_done.
  - intros calls h Hcalls.
    by apply run_invocations_run_only_callback.
  - intros c s calls h Hkeep Hs Hcur Hcalls.
    destruct (run_invocations_non_default c s calls Hkeep
                ltac:(by rewrite Hcur) Hcalls h Hs)
      as (Hc & _ & rs & h' & Ho & _).
    split; [done|]. rewrite Ho. by eexists.
Qed.

(** C3 (amended): in every invocation that makes a guard lookup, the
    dispatch sets the callback register to the disabled sentinel
    ([Py_None]) immediately before the lookup, so the lookup starts under
    the disabled sentinel.  After the lookup the dispatch writes the
    register only around the execution of the routine: it sets it to the
    nested-call callback (the supplied callback, unless the strategy read on
    entry or a sentinel result of the compiler callback overrides it) just
    before the default or the specialized execution, which starts under that
    callback, and sets it back to the supplied callback after that execution
    when the two differ.  On the exits that execute nothing (guard failure,
    cache miss under skip-guard-eval, compiler failure) it does not write
    the register again, and the dispatch returns failure. *)
Theorem C3_callback_register_around_lookup frame throw_flag callback h post :
  let run := dynamo__custom_eval_frame frame throw_flag callback h in
  let rc := nested_callback (entry_strategy (F_CODE frame) h) callback
              (callback_result_of run.1) in
  after_lookup run.1 = Some post ->
  before_lookup None run.1 = Some (EvCallbackSet Py_None)
  /\ (forall c b a found, In (EvLookup c b a found) run.1 -> a = Py_None)
  /\ post_lookup_discipline callback rc
       (List.filter is_callback_set_or_exec post)
  /\ (List.filter is_callback_set_or_exec post = [] ->
      forall r h', run.2 = Some (r, h') -> r = None).
Proof.
  intros run rc. subst rc run.
  change (wp (dynamo__custom_eval_frame frame throw_flag callback) h
    (fun t o =>
       after_lookup t = Some post ->
       before_lookup None t = Some (EvCallbackSet Py_None)
       /\ (forall c b a found, In (EvLookup c b a found) t -> a = Py_None)
       /\ post_lookup_discipline callback
            (nested_callback (entry_strategy (F_CODE frame) h) callback
               (callback_result_of t))
            (List.filter is_callback_set_or_exec post)
       /\ (List.filter is_callback_set_or_exec post = [] ->
           forall r h', o = Some (r, h') -> r = None))).
  unfold dynamo__custom_eval_frame, entry_strategy, nested_callback.
  destruct (extra_states h !! F_CODE frame) as [e|] eqn:Hextra.
  - destruct (cur_action (strategy e)) eqn:Hc,
      (recursive_action (strategy e)) eqn:Hr.
    all: wp_path ltac:(rewrite ?Hextra, ?Hc, ?Hr) ltac:(absurd_branch).
    all: simpl; intros Hpost; try discriminate Hpost.
    all: injection Hpost as <-.
    all: split; [reflexivity|].
    all: split; [intros ? ? ? ?; intuition congruence|].
    all: simpl; split;
      [|intros Hnil r' h'' Ho; first [ discriminate Hnil | congruence ]].
    all: simpl in *.
    all: repeat match goal with
           | H : ~ (_ <> _) |- _ => apply dec_stable in H
           end; subst; simpl.
    all: try match goal with
           | |- context [sentinel_callback ?p] =>
               destruct p; try congruence; simpl
           end.
    all: first [ apply pld_failure_exit
               | apply pld_exec_other; [congruence|reflexivity]
               | apply pld_exec_same; [congruence|reflexivity] ].
  - wp_path ltac:(cbn [cur_action recursive_action strategy
                       fresh_extra_state initial_strategy];
                  rewrite ?Hextra, ?lookup_insert_eq)
      ltac:(absurd_branch).
    all: simpl; intros Hpost; try discriminate Hpost.
    all: injection Hpost as <-.
    all: split; [reflexivity|].
    all: split; [intros ? ? ? ?; intuition congruence|].
    all: simpl; split;
      [|intros Hnil r' h'' Ho; first [ discriminate Hnil | congruence ]].
    all: simpl in *.
    all: repeat match goal with
           | H : ~ (_ <> _) |- _ => apply dec_stable in H
           end; subst; simpl.
    all: try match goal with
           | |- context [sentinel_callback ?p] =>
               destruct p; try congruence; simpl
           end.
    all: first [ apply pld_failure_exit
               | apply pld_exec_other; [congruence|reflexivity]
               | apply pld_exec_same; [congruence|reflexivity] ].
Qed.

(** Every strategy write of one invocation is justified. *)
Lemma dispatch_strategy_writes frame throw_flag callback h :
  wp (dynamo__custom_eval_frame frame throw_flag callback) h
    (fun t _ => Forall (justified_write frame) (strategy_writes None t)).
Proof.
  unfold dynamo__custom_eval_frame.
  destruct (extra_states h !! F_CODE frame) as [e|] eqn:Hextra.
  all: wp_path ltac:(rewrite ?Hextra) ltac:(absurd_branch).
  all: simpl; repeat constructor; simpl; try done.
  all: repeat match goal with
         | H : ~ (_ <> _) |- _ => apply dec_stable in H
         end; subst.
  all: by eexists _, _, _.
Qed.

(** An invocation of a routine that is not in DEFAULT mode writes no
    strategy. *)
Lemma dispatch_non_default_no_write frame throw_flag callback h :
  cur_action (entry_strategy (F_CODE frame) h) <> DEFAULT ->
  wp (dynamo__custom_eval_frame frame throw_flag callback) h
    (fun t _ => List.filter is_set_exec_strategy t = []).
Proof.
  unfold entry_strategy. intros Hcur.
  destruct (extra_states h !! F_CODE frame) as [e|] eqn:Hextra; [|done].
  unfold dynamo__custom_eval_frame.
  wp_path ltac:(rewrite ?Hextra)
    ltac:(first [ absurd_branch
                | exfalso; destruct (cur_action (strategy e));
                  intuition congruence ]).
  all: reflexivity.
Qed.

(** C9: the dispatch writes an Execution Strategy only on the record of
    the routine being invoked, only right after the compiler callback
    returned a sentinel, and only the value that belongs to that sentinel:
    (SKIP, SKIP) for skip-recursive, (RUN_ONLY, RUN_ONLY) for
    budget-exhausted, (SKIP, DEFAULT) for no specialization.  It never
    writes a strategy whose current action is DEFAULT, and it writes none at
    all when the current action it read is SKIP or RUN_ONLY.  So over any
    number of invocations of a routine whose current action is SKIP or
    RUN_ONLY the dispatch returns each time and the strategy stays what it
    was, as long as it is not cleared from outside. *)
Theorem C9_strategy_transitions :
  (forall frame throw_flag callback h,
     Forall (justified_write frame)
       (strategy_writes None
          (dynamo__custom_eval_frame frame throw_flag callback h).1))
  /\ (forall frame throw_flag callback h w,
       In w (strategy_writes None
               (dynamo__custom_eval_frame frame throw_flag callback h).1) ->
       cur_action w.2 <> DEFAULT)
  /\ (forall frame throw_flag callback h,
       cur_action (entry_strategy (F_CODE frame) h) <> DEFAULT ->
       List.filter is_set_exec_strategy
         (dynamo__custom_eval_frame frame throw_flag callback h).1 = [])
  /\ (forall c s calls h,
       keeps_strategy c ->
       strategy_of c h = Some s ->
       cur_action s <> DEFAULT ->
       Forall (fun i => F_CODE (inv_frame i) = c) calls ->
       List.filter is_set_exec_strategy (run_invocations calls h).1 = [] /\
       exists rs h',
         (run_invocations calls h).2 = Some (rs, h') /\
         strategy_of c h' = Some s).
Proof.
  repeat apply conj.
  - intros. apply dispatch_strategy_writes.
  - intros frame throw_flag callback h w Hw.
    pose proof (dispatch_strategy_writes frame throw_flag callback h) as Hall.
    unfold wp in Hall. rewrite Forall_forall in Hall.
    apply list_elem_of_In, Hall in Hw as (_ & cb & a & r & _ & Hs).
    destruct r; simpl in Hs; try discriminate Hs; by injection Hs as <-.
  - intros. by apply dispatch_non_default_no_write.
  - intros c s calls h Hkeep Hs Hcur Hcalls.
    destruct (run_invocations_non_default c s calls Hkeep Hcur Hcalls h Hs)
      as (_ & Hw & Hrest).
    done.
Qed.

(** C10: when the current action read on entry is DEFAULT, the stored
    recursive action does not select the callback for nested frames.  The
    routine, original or compiled, starts under the supplied callback,
    except after a skip-recursive or budget-exhausted result of the
    compiler callback in this same invocation, and then only if the stored
    recursive action is DEFAULT.  In particular, with a stored recursive
    action of SKIP or RUN_ONLY the routine always starts under the supplied
    callback. *)
Theorem C10_recursive_action_ignored_in_default_mode
    frame callback h ev a :
  let pre := entry_strategy (F_CODE frame) h in
  let run := dynamo__custom_eval_frame frame false callback h in
  cur_action pre = DEFAULT ->
  In ev run.1 ->
  exec_active ev = Some a ->
  (a = callback \/
   (recursive_action pre = DEFAULT /\
    exists cb act r,
      In (EvCallCallback cb frame act (Some r)) run.1 /\
      sentinel_callback r = Some a))
  /\ (recursive_action pre <> DEFAULT -> a = callback).
Proof.
  intros pre run Hcur. subst pre run. revert Hcur.
  change (cur_action (entry_strategy (F_CODE frame) h) = DEFAULT ->
    wp (dynamo__custom_eval_frame frame false callback) h
      (fun t _ =>
         In ev t -> exec_active ev = Some a ->
         (a = callback \/
          (recursive_action (entry_strategy (F_CODE frame) h) = DEFAULT /\
           exists cb act r,
             In (EvCallCallback cb frame act (Some r)) t /\
             sentinel_callback r = Some a))
         /\ (recursive_action (entry_strategy (F_CODE frame) h) <> DEFAULT ->
             a = callback))).
  unfold entry_strategy. intros Hcur.
  unfold dynamo__custom_eval_frame.
  destruct (extra_states h !! F_CODE frame) as [e|] eqn:Hextra.
  all: wp_path
         ltac:(cbn [cur_action recursive_action strategy fresh_extra_state
                    initial_strategy];
               rewrite ?Hextra, ?lookup_insert_eq; try solve_cur Hcur)
         ltac:(absurd_branch).
  all: simpl; intros Hin Hact.
  all: repeat (destruct Hin as [<-|Hin];
               [simpl in Hact; try discriminate Hact|]); try done.
  all: injection Hact as <-.
  all: repeat match goal with
         | |- context [decide ?P] => destruct (decide P)
         end; subst.
  all: split; [|intros; first [reflexivity | congruence | done]].
  all: first [ left; reflexivity
             | right; split; [done|];
               eexists _, _, _;
               split; [repeat first [ left; reflexivity | right ]
                      | reflexivity] ].
Qed.

End Claims.

(** ** The claims on the scripted world *)

(** First call of routine 7, and the compiler answers skip-recursive. *)
Lemma C1_witness :
  dynamo__custom_eval_frame (H := world_skip_recursive) frame1 false (PyObj 1)
    host0 =
    ([EvInitExtraState 7; EvCallbackSet Py_None;
      EvLookup 7 (PyObj 1) Py_None (Some Py_None);
      EvCallCallback (PyObj 1) frame1 Py_None (Some skip_code_recursive_flag);
      EvSetExecStrategy 7 skip_skip; EvCallbackSet Py_None;
      EvEvalDefault frame1 false Py_None; EvCallbackSet (PyObj 1)],
     Some (Some (PyObj 90), host_with (extra_with [] skip_skip))).
Proof.
  assert (PyObj 1 <> Py_False) as H1 by discriminate.
  assert (cur_action (entry_strategy (F_CODE frame1) host0) = DEFAULT) as H2
    by reflexivity.
  assert (guard_lookup (H := world_skip_recursive) frame1 (PyObj 1) host0 =
            ((Some Py_None, ""%string), host1)) as H3 by reflexivity.
  assert (is_skip_guard_eval_unsafe host1 = false) as H4 by reflexivity.
  assert (points_to (entry_pointer (H := world_skip_recursive) (F_CODE frame1)
                       host0) host1 (fresh_extra_state 1)) as H5
    by (split; reflexivity).
  assert (dynamo_call_callback (Collaborators := world_skip_recursive)
            (PyObj 1) frame1 (f_locals frame1)
            (cache_entry_list (fresh_extra_state 1))
            (frame_state (fresh_extra_state 1)) host1 =
            (Some skip_code_recursive_flag, host1)) as H6 by reflexivity.
  assert (Some skip_code_recursive_flag <> None ->
          points_to (entry_pointer (H := world_skip_recursive) (F_CODE frame1)
                       host0) host1 (fresh_extra_state 1)) as H7
    by (intros _; split; reflexivity).
  destruct (C1_callback_protocol (H := world_skip_recursive) frame1 (PyObj 1)
              host0 ""%string host1 (fresh_extra_state 1)
              (Some skip_code_recursive_flag) host1 (fresh_extra_state 1)
              H1 H2 H3 H4 H5 H6 H7) as (_ & Hskip & _).
  destruct (Hskip eq_refl) as [_ ->].
  vm_compute. reflexivity.
Defined.

(** A routine in RUN_ONLY whose cache has nothing for the backend: the miss
    is default-executed, nested frames under the run-only sentinel. *)
Lemma C2_witness :
  dynamo__custom_eval_frame (H := world_compiles) frame1 false (PyObj 1)
    (host_with (extra_with [] run_run)) =
    ([EvCallbackSet Py_None; EvLookup 7 (PyObj 1) Py_None (Some Py_None);
      EvCallbackSet Py_False; EvEvalDefault frame1 false Py_False;
      EvCallbackSet (PyObj 1)],
     Some (Some (PyObj 90), host_with (extra_with [] run_run)))
  /\ dynamo__custom_eval_frame (H := world_compiles) frame1 false (PyObj 1)
       (host_unsafe (extra_with [] run_run)) =
       ([EvCallbackSet Py_None; EvLookup 7 (PyObj 1) Py_None (Some Py_None);
         EvErrSetString "RuntimeError" skip_guard_eval_unsafe_message;
         EvClearFrame frame1],
        Some (None,
              with_err
                (Some ("RuntimeError"%string, skip_guard_eval_unsafe_message))
                (with_callback Py_None (host_unsafe (extra_with [] run_run)))))
  /\ compiler_invocations
       (run_invocations (H := world_compiles) [call1; call1; call1]
          (host_with (extra_with [] run_run))).1 = 0.
Proof.
  destruct (C2_run_only_never_compiles (H := world_compiles))
    as (_ & Hmiss & Hunsafe & _ & Hcalls).
  assert (PyObj 1 = Py_False \/
          cur_action (strategy (extra_with [] run_run)) = RUN_ONLY) as H1
    by (right; reflexivity).
  assert (cur_action (strategy (extra_with [] run_run)) <> SKIP) as H3
    by discriminate.
  repeat apply conj.
  - assert (extra_states (host_with (extra_with [] run_run)) !! F_CODE frame1 =
              Some (extra_with [] run_run)) as H2 by reflexivity.
    assert (guard_lookup (H := world_compiles) frame1 (PyObj 1)
              (host_with (extra_with [] run_run)) =
              ((Some Py_None, ""%string),
               with_callback Py_None (host_with (extra_with [] run_run))))
      as H4 by reflexivity.
    assert (is_skip_guard_eval_unsafe
              (with_callback Py_None (host_with (extra_with [] run_run))) =
              false) as H5 by reflexivity.
    rewrite (Hmiss frame1 (PyObj 1) _ _ _ _ H1 H2 H3 H4 H5).
    vm_compute. reflexivity.
  - assert (extra_states (host_unsafe (extra_with [] run_run)) !! F_CODE frame1
            = Some (extra_with [] run_run)) as H2 by reflexivity.
    assert (guard_lookup (H := world_compiles) frame1 (PyObj 1)
              (host_unsafe (extra_with [] run_run)) =
              ((Some Py_None, ""%string),
               with_callback Py_None (host_unsafe (extra_with [] run_run))))
      as H4 by reflexivity.
    assert (is_skip_guard_eval_unsafe
              (with_callback Py_None (host_unsafe (extra_with [] run_run))) =
              true) as H5 by reflexivity.
    exact (Hunsafe frame1 (PyObj 1) _ _ _ _ H1 H2 H3 H4 H5).
  - assert (keeps_strategy (H := world_compiles) 7) as K
      by (repeat split; intros; try reflexivity;
          simpl; repeat case_match; reflexivity).
    assert (strategy_of 7 (host_with (extra_with [] run_run)) = Some run_run)
      as H5 by reflexivity.
    assert (cur_action run_run = RUN_ONLY) as H6 by reflexivity.
    assert (Forall (fun i => F_CODE (inv_frame i) = 7%positive)
              [call1; call1; call1]) as H7
      by (repeat constructor).
    exact (proj1 (Hcalls 7%positive run_run [call1; call1; call1] _ K H5 H6 H7)).
Defined.

(** First call of routine 7 with a compiler that delivers code: the register
    is disabled for the lookup and set to the supplied callback for the run
    of the compiled code. *)
Lemma C3_witness :
  before_lookup None
    (dynamo__custom_eval_frame (H := world_compiles) frame1 false (PyObj 1)
       host0).1 = Some (EvCallbackSet Py_None)
  /\ post_lookup_discipline (PyObj 1) (PyObj 1)
       [EvCallbackSet (PyObj 1);
        EvEvalCustom frame1 (PyObj 50) "compiled" false (PyObj 1)].
Proof.
  assert (after_lookup
            (dynamo__custom_eval_frame (H := world_compiles) frame1 false
               (PyObj 1) host0).1 =
          Some [EvCallCallback (PyObj 1) frame1 Py_None (Some (PyObj 50));
                EvCreateCacheEntry 7 entry50;
                EvCallbackSet (PyObj 1);
                EvEvalCustom frame1 (PyObj 50) "compiled" false (PyObj 1);
                EvClearFrame frame1]) as H1 by reflexivity.
  destruct (C3_callback_register_around_lookup (H := world_compiles) frame1
              false (PyObj 1) host0 _ H1) as (Hb & _ & Hd & _).
  split; [exact Hb | exact Hd].
Defined.

(** Routine 7 has an entry for the backend: the call runs its code. *)
Lemma C5_witness :
  dynamo__custom_eval_frame (H := world_compiles) frame1 false (PyObj 1)
    (host_with (extra_with [entry50] default_default)) =
    ([EvCallbackSet Py_None; EvLookup 7 (PyObj 1) Py_None (Some (PyObj 50));
      EvCallbackSet (PyObj 1);
      EvEvalCustom frame1 (PyObj 50) "compiled" false (PyObj 1);
      EvClearFrame frame1],
     Some (Some (PyObj 50), host_with (extra_with [entry50] default_default))).
Proof.
  assert (extra_states (host_with (extra_with [entry50] default_default))
            !! F_CODE frame1 = Some (extra_with [entry50] default_default))
    as H1 by reflexivity.
  assert (guard_lookup (H := world_compiles) frame1 (PyObj 1)
            (host_with (extra_with [entry50] default_default)) =
          ((Some (PyObj 50), "compiled"%string),
           with_callback Py_None
             (host_with (extra_with [entry50] default_default)))) as H2
    by reflexivity.
  assert (PyObj 50 <> Py_None) as H3 by discriminate.
  assert (cur_action (strategy (extra_with [entry50] default_default)) <> SKIP)
    as H4 by discriminate.
  destruct (C5_cache_hit (H := world_compiles) frame1 false (PyObj 1) _ _ _ _ _
              H1 H2 H3) as [_ Hrun].
  rewrite (Hrun eq_refl H4). vm_compute. reflexivity.
Defined.

(** A miss under skip-guard-eval: the call fails with the diagnostic. *)
Lemma C6_witness :
  dynamo__custom_eval_frame (H := world_compiles) frame1 false (PyObj 1)
    (host_unsafe (extra_with [] default_default)) =
    ([EvCallbackSet Py_None; EvLookup 7 (PyObj 1) Py_None (Some Py_None);
      EvErrSetString "RuntimeError" skip_guard_eval_unsafe_message;
      EvClearFrame frame1],
     Some (None,
           with_err (Some ("RuntimeError"%string, skip_guard_eval_unsafe_message))
             (with_callback Py_None
                (host_unsafe (extra_with [] default_default))))).
Proof.
  assert (~ (PyObj 1 = Py_False /\
             extra_states (host_unsafe (extra_with [] default_default))
               !! F_CODE frame1 = None)) as H1 by (intros [? _]; discriminate).
  assert (cur_action
            (entry_strategy (F_CODE frame1)
               (host_unsafe (extra_with [] default_default))) <> SKIP) as H2
    by discriminate.
  assert (guard_lookup (H := world_compiles) frame1 (PyObj 1)
            (host_unsafe (extra_with [] default_default)) =
          ((Some Py_None, ""%string),
           with_callback Py_None
             (host_unsafe (extra_with [] default_default)))) as H3
    by reflexivity.
  assert (is_skip_guard_eval_unsafe
            (with_callback Py_None
               (host_unsafe (extra_with [] default_default))) = true) as H4
    by reflexivity.
  exact (proj1 (C6_miss_under_skip_guard_eval_unsafe (H := world_compiles)
                  frame1 (PyObj 1) _ _ _ H1 H2 H3 H4)).
Defined.

(** First call of routine 7 with a compiler that raises. *)
Lemma C7_witness :
  dynamo__custom_eval_frame (H := world_compiler_fails) frame1 false (PyObj 1)
    host0 =
    ([EvInitExtraState 7; EvCallbackSet Py_None;
      EvLookup 7 (PyObj 1) Py_None (Some Py_None);
      EvCallCallback (PyObj 1) frame1 Py_None None; EvClearFrame frame1],
     Some (None, host1)).
Proof.
  assert (PyObj 1 <> Py_False) as H1 by discriminate.
  assert (cur_action (entry_strategy (F_CODE frame1) host0) = DEFAULT) as H2
    by reflexivity.
  assert (guard_lookup (H := world_compiler_fails) frame1 (PyObj 1) host0 =
            ((Some Py_None, ""%string), host1)) as H3 by reflexivity.
  assert (is_skip_guard_eval_unsafe host1 = false) as H4 by reflexivity.
  assert (extra_states host1 !! F_CODE frame1 = Some (fresh_extra_state 1))
    as H5 by reflexivity.
  assert (extra_addr (fresh_extra_state 1) =
          ptr_addr (entry_pointer (H := world_compiler_fails) (F_CODE frame1)
                      host0)) as H5' by reflexivity.
  assert (dynamo_call_callback (Collaborators := world_compiler_fails)
            (PyObj 1) frame1 (f_locals frame1)
            (cache_entry_list (fresh_extra_state 1))
            (frame_state (fresh_extra_state 1)) host1 = (None, host1)) as H6
    by reflexivity.
  exact (proj1 (C7_compiler_failure (H := world_compiler_fails) frame1
                  (PyObj 1) host0 _ _ _ _ H1 H2 H3 H4 H5 H5' H6)).
Defined.

(** A never-seen routine under the run-only sentinel. *)
Lemma C8_witness :
  dynamo__custom_eval_frame (H := world_compiles) frame1 false Py_False host0 =
    ([EvCallbackSet Py_False; EvEvalDefault frame1 false Py_False],
     Some (Some (PyObj 90), with_callback Py_False host0))
  /\ extra_states (with_callback Py_False host0) !! F_CODE frame1 = None.
Proof.
  assert (extra_states host0 !! F_CODE frame1 = None) as H1 by reflexivity.
  exact (C8_run_only_fast_path (H := world_compiles) frame1 Py_False host0
           eq_refl H1).
Defined.

(** Three calls of a routine in (SKIP, SKIP). *)
Lemma C9_witness :
  List.filter is_set_exec_strategy
    (run_invocations (H := world_compiles) [call1; call1_run_only; call1]
       (host_with (extra_with [] skip_skip))).1 = []
  /\ exists rs h',
       (run_invocations (H := world_compiles) [call1; call1_run_only; call1]
          (host_with (extra_with [] skip_skip))).2 = Some (rs, h') /\
       strategy_of 7 h' = Some skip_skip.
Proof.
  assert (keeps_strategy (H := world_compiles) 7) as K
    by (repeat split; intros; try reflexivity;
        simpl; repeat case_match; reflexivity).
  assert (strategy_of 7 (host_with (extra_with [] skip_skip)) = Some skip_skip)
    as H1 by reflexivity.
  assert (cur_action skip_skip <> DEFAULT) as H2 by discriminate.
  assert (Forall (fun i => F_CODE (inv_frame i) = 7%positive)
            [call1; call1_run_only; call1]) as H3 by (repeat constructor).
  exact (proj2 (proj2 (proj2 (C9_strategy_transitions (H := world_compiles))))
           7%positive skip_skip _ _ K H1 H2 H3).
Defined.

(** The stored strategy is (DEFAULT, SKIP), as only a write from outside can
    leave it, and the compiler answers skip-recursive: the routine still runs
    under the supplied callback [PyObj 1]. *)
Lemma C10_witness :
  In (EvEvalDefault frame1 false (PyObj 1))
    (dynamo__custom_eval_frame (H := world_skip_recursive) frame1 false
       (PyObj 1) (host_with (extra_with [] default_skip))).1
  /\ forall a,
       exec_active (EvEvalDefault frame1 false (PyObj 1)) = Some a ->
       a = PyObj 1.
Proof.
  assert (cur_action
            (entry_strategy (F_CODE frame1)
               (host_with (extra_with [] default_skip))) = DEFAULT) as H1
    by reflexivity.
  assert (In (EvEvalDefault frame1 false (PyObj 1))
            (dynamo__custom_eval_frame (H := world_skip_recursive) frame1 false
               (PyObj 1) (host_with (extra_with [] default_skip))).1) as H2
    by (vm_compute; do 5 right; left; reflexivity).
  assert (recursive_action
            (entry_strategy (F_CODE frame1)
               (host_with (extra_with [] default_skip))) <> DEFAULT) as H3
    by discriminate.
  split; [exact H2|].
  intros a Ha.
  exact (proj2 (C10_recursive_action_ignored_in_default_mode
                  (H := world_skip_recursive) frame1 (PyObj 1) _ _ a H1 H2 Ha)
           H3).
Defined.

(** Routine 7 is in RUN_ONLY, its cache misses, and the skip-guard-eval mode
    is on: the call is not default-executed, it fails with the
    diagnostic. *)
Lemma C2_counterexample :
  cur_action
    (entry_strategy (F_CODE frame1) (host_unsafe (extra_with [] run_run))) =
    RUN_ONLY
  /\ dynamo__custom_eval_frame (H := world_compiles) frame1 false (PyObj 1)
       (host_unsafe (extra_with [] run_run)) =
       ([EvCallbackSet Py_None; EvLookup 7 (PyObj 1) Py_None (Some Py_None);
         EvErrSetString "RuntimeError" skip_guard_eval_unsafe_message;
         EvClearFrame frame1],
        Some (None,
              with_err
                (Some ("RuntimeError"%string, skip_guard_eval_unsafe_message))
                (with_callback Py_None (host_unsafe (extra_with [] run_run)))))
  /\ List.filter is_eval_default
       (dynamo__custom_eval_frame (H := world_compiles) frame1 false (PyObj 1)
          (host_unsafe (extra_with [] run_run))).1 = [].
Proof. repeat split; vm_compute; reflexivity. Qed.

(** Guard evaluation raises: the dispatch returns with the register still
    disabled, although the call came in under callback [PyObj 1], and no
    collaborator touched the register. *)
Lemma C3_counterexample :
  eval_frame_callback host0 = PyObj 1
  /\ dynamo__custom_eval_frame (H := world_guard_raises) frame1 false (PyObj 1)
       host0 =
       ([EvInitExtraState 7; EvCallbackSet Py_None;
         EvLookup 7 (PyObj 1) Py_None None; EvClearFrame frame1],
        Some (None, host1))
  /\ eval_frame_callback host1 = Py_None
  /\ ~ In (EvCallbackSet (PyObj 1))
         (dynamo__custom_eval_frame (H := world_guard_raises) frame1 false
            (PyObj 1) host0).1.
Proof.
  repeat split; try (vm_compute; reflexivity).
  vm_compute. intuition discriminate.
Qed.


(** * Further properties of the dispatch *)

Section MoreProperties.
Context `{!Collaborators}.


(** X2: when guard lookup fails (returns null), the dispatch retires the
    frame and returns failure at once.  Nothing is executed, the compiler is
    not called, the callback register stays disabled, and the state is the
    one the lookup left, passed through the frame clean-up: the error the
    lookup raised is not touched. *)
Theorem X2_guard_failure frame callback h annot h1 :
  ~ (callback = Py_False /\ extra_states h !! F_CODE frame = None) ->
  cur_action (entry_strategy (F_CODE frame) h) <> SKIP ->
  guard_lookup frame callback h = ((None, annot), h1) ->
  dynamo__custom_eval_frame frame false callback h =
    (init_trace (F_CODE frame) h ++
     [EvCallbackSet Py_None;
      EvLookup (F_CODE frame) (get_backend callback) Py_None None;
      EvClearFrame frame],
     Some (None, clear_old_frame_if_python_312_plus frame h1)).
Proof.
  intros Hfast Hskip Hlk.
  unfold entry_strategy, init_trace in *.
  destruct (extra_states h !! F_CODE frame) as [e|] eqn:Hextra;
    norm_lookup Hlk Hextra; start_run.
  - wp_path ltac:(rewrite ?Hextra, ?Hlk) ltac:(absurd_branch).
    all: run_done.
  - wp_path ltac:(rewrite ?Hextra, ?Hlk, ?lookup_insert_eq)
      ltac:(absurd_branch).
    all: run_done.
Qed.

(** X3: every invocation that returns took exactly one exit.  Either the
    original routine was default-executed once, and then the dispatch did
    not retire the frame and ran no compiled code; or the routine was not
    default-executed, compiled code ran at most once, and the frame was
    retired exactly once, as the last thing the dispatch did.  If nothing
    ran at all, the result is failure. *)
Theorem X3_one_exit frame throw_flag callback h r h' :
  let run := dynamo__custom_eval_frame frame throw_flag callback h in
  run.2 = Some (r, h') ->
  (count_events is_eval_default run.1 = 1 /\
   count_events is_eval_custom run.1 = 0 /\
   count_events is_clear_frame run.1 = 0)
  \/ (count_events is_eval_default run.1 = 0 /\
      count_events is_eval_custom run.1 <= 1 /\
      count_events is_clear_frame run.1 = 1 /\
      last run.1 = Some (EvClearFrame frame) /\
      (count_events is_eval_custom run.1 = 0 -> r = None)).
Proof.
  intros run. subst run.
  change (wp (dynamo__custom_eval_frame frame throw_flag callback) h
    (fun t o =>
       o = Some (r, h') ->
       (count_events is_eval_default t = 1 /\
        count_events is_eval_custom t = 0 /\
        count_events is_clear_frame t = 0)
       \/ (count_events is_eval_default t = 0 /\
           count_events is_eval_custom t <= 1 /\
           count_events is_clear_frame t = 1 /\
           last t = Some (EvClearFrame frame) /\
           (count_events is_eval_custom t = 0 -> r = None)))).
  unfold dynamo__custom_eval_frame.
  wp_go idtac.
  all: intros Ho; try discriminate Ho.
  all: unfold count_events; simpl.
  all: first
         [ left; repeat split; reflexivity
         | right; repeat split;
           first [ reflexivity | lia | congruence
                 | intros Hn; discriminate Hn ] ].
Qed.

(** X4: the dispatch creates Extra State in exactly one situation: the call
    is not unwinding, the routine has no record yet, and the supplied
    callback is not the run-only sentinel; the record created is that of the
    frame's own routine.  In particular an existing record is never
    re-created. *)
Theorem X4_lazy_creation frame throw_flag callback h c :
  In (EvInitExtraState c)
    (dynamo__custom_eval_frame frame throw_flag callback h).1 <->
  (c = F_CODE frame /\ throw_flag = false /\
   extra_states h !! F_CODE frame = None /\ callback <> Py_False).
Proof.
  change (wp (dynamo__custom_eval_frame frame throw_flag callback) h
    (fun t _ =>
       In (EvInitExtraState c) t <->
       (c = F_CODE frame /\ throw_flag = false /\
        extra_states h !! F_CODE frame = None /\ callback <> Py_False))).
  unfold dynamo__custom_eval_frame.
  destruct (extra_states h !! F_CODE frame) as [e|] eqn:Hextra.
  all: wp_path ltac:(rewrite ?Hextra) ltac:(absurd_branch).
  all: simpl; split;
    [ intros Hin;
      repeat (destruct Hin as [Hin|Hin]; [try discriminate Hin|]);
      try done; injection Hin as <-; repeat split; try done; tauto
    | intros (-> & Ht & Hn & Hcb); try discriminate; try tauto; auto ].
Qed.

(** X5: the compiler callback is only ever called on a genuine miss.  If a
    run contains a compiler call, then it was made with the supplied callback
    and the frame of the invocation, the call was not unwinding, the callback
    is not the run-only sentinel, the current action read on entry was
    DEFAULT, the one guard lookup of the run had missed, and this was the
    only compiler call of the run. *)
Theorem X5_compile_only_on_genuine_miss
    frame throw_flag callback h cb f a r :
  let run := dynamo__custom_eval_frame frame throw_flag callback h in
  In (EvCallCallback cb f a r) run.1 ->
  cb = callback /\ f = frame /\ throw_flag = false /\
  callback <> Py_False /\
  cur_action (entry_strategy (F_CODE frame) h) = DEFAULT /\
  In (EvLookup (F_CODE frame) (get_backend callback) Py_None (Some Py_None))
    run.1 /\
  compiler_invocations run.1 = 1 /\
  count_events is_lookup run.1 = 1.
Proof.
  intros run. subst run.
  change (wp (dynamo__custom_eval_frame frame throw_flag callback) h
    (fun t _ =>
       In (EvCallCallback cb f a r) t ->
       cb = callback /\ f = frame /\ throw_flag = false /\
       callback <> Py_False /\
       cur_action (entry_strategy (F_CODE frame) h) = DEFAULT /\
       In (EvLookup (F_CODE frame) (get_backend callback) Py_None
             (Some Py_None)) t /\
       compiler_invocations t = 1 /\
       count_events is_lookup t = 1)).
  unfold dynamo__custom_eval_frame, entry_strategy.
  destruct (extra_states h !! F_CODE frame) as [e|] eqn:Hextra.
  all: wp_path ltac:(rewrite ?Hextra, ?lookup_insert_eq) ltac:(absurd_branch).
  all: simpl; intros Hin.
  all: repeat (destruct Hin as [Hin|Hin]; [try discriminate Hin|]); try done.
  all: injection Hin as <- <- <- <-.
  all: repeat match goal with
         | H : ~ (_ \/ _) |- _ => apply Decidable.not_or in H; destruct H
         | H : ~ (_ <> _) |- _ => apply dec_stable in H
         end; subst.
  all: repeat split; try done; try tauto.
  all: try (simpl; tauto).
  all: try (destruct (cur_action (strategy e)); congruence).
Qed.

(** X6: the dispatch installs a cache entry only on the record of the
    frame's own routine, only right after the compiler callback returned an
    object that is none of the sentinels, and the entry pairs that object
    with the backend of the supplied callback.  Per invocation there is at
    most one compiler call, and it leads to at most one write: a strategy or
    an entry, never both. *)
Theorem X6_cache_entry_installs frame throw_flag callback h :
  let tr := (dynamo__custom_eval_frame frame throw_flag callback h).1 in
  Forall (justified_entry frame callback) (entry_writes None tr)
  /\ length (entry_writes None tr) + length (strategy_writes None tr)
       <= compiler_invocations tr
  /\ compiler_invocations tr <= 1.
Proof.
  intros tr. subst tr.
  change (wp (dynamo__custom_eval_frame frame throw_flag callback) h
    (fun t _ =>
       Forall (justified_entry frame callback) (entry_writes None t)
       /\ length (entry_writes None t) + length (strategy_writes None t)
            <= compiler_invocations t
       /\ compiler_invocations t <= 1)).
  unfold dynamo__custom_eval_frame.
  destruct (extra_states h !! F_CODE frame) as [e|] eqn:Hextra.
  all: wp_path ltac:(rewrite ?Hextra) ltac:(absurd_branch).
  all: unfold compiler_invocations; simpl.
  all: split; [|lia].
  all: repeat constructor; simpl; try done.
  all: eexists _, _; split; [reflexivity|]; split; [|reflexivity].
  all: match goal with |- sentinel_strategy ?p = None =>
         destruct p; simpl; congruence end.
Qed.

(** X7: the dispatch raises an error of its own in one case only.  If a run
    sets the error indicator, it sets the skip-guard-eval [RuntimeError],
    after a guard lookup that missed; the compiler was not called, nothing
    was executed, and the run returned failure. *)
Theorem X7_error_only_on_unsafe_miss frame throw_flag callback h exc msg :
  let run := dynamo__custom_eval_frame frame throw_flag callback h in
  In (EvErrSetString exc msg) run.1 ->
  exc = "RuntimeError"%string /\ msg = skip_guard_eval_unsafe_message /\
  In (EvLookup (F_CODE frame) (get_backend callback) Py_None (Some Py_None))
    run.1 /\
  compiler_invocations run.1 = 0 /\
  count_events is_eval_default run.1 = 0 /\
  count_events is_eval_custom run.1 = 0 /\
  exists h', run.2 = Some (None, h').
Proof.
  intros run. subst run.
  change (wp (dynamo__custom_eval_frame frame throw_flag callback) h
    (fun t o =>
       In (EvErrSetString exc msg) t ->
       exc = "RuntimeError"%string /\ msg = skip_guard_eval_unsafe_message /\
       In (EvLookup (F_CODE frame) (get_backend callback) Py_None
             (Some Py_None)) t /\
       compiler_invocations t = 0 /\
       count_events is_eval_default t = 0 /\
       count_events is_eval_custom t = 0 /\
       exists h', o = Some (None, h'))).
  unfold dynamo__custom_eval_frame.
  destruct (extra_states h !! F_CODE frame) as [e|] eqn:Hextra.
  all: wp_path ltac:(rewrite ?Hextra) ltac:(absurd_branch).
  all: simpl; intros Hin.
  all: repeat (destruct Hin as [Hin|Hin]; [try discriminate Hin|]); try done.
  all: injection Hin as <- <-.
  all: repeat match goal with
         | H : ~ (_ <> _) |- _ => apply dec_stable in H
         end; subst.
  all: repeat split; try done; try (simpl; tauto).
  all: by eexists.
Qed.

(** X8: the dispatch always returns, provided guard lookup and the compiler
    callback neither destroy nor replace the Extra State object of the
    routine being invoked (the only pointer the dispatch keeps across calls
    out). *)
Theorem X8_returns_unless_record_destroyed frame throw_flag callback h :
  keeps_record (F_CODE frame) ->
  is_Some (dynamo__custom_eval_frame frame throw_flag callback h).2.
Proof.
  intros [Kl Kc].
  change (wp (dynamo__custom_eval_frame frame throw_flag callback) h
    (fun _ o => is_Some o)).
  unfold dynamo__custom_eval_frame.
  destruct (extra_states h !! F_CODE frame) as [e|] eqn:Hextra.
  all: wp_path ltac:(rewrite ?Hextra, ?lookup_insert_eq)
         ltac:(absurd_branch).
  all: try (by eexists).
  all: exfalso.
  all: repeat match goal with
         | H : context [(lookup ?c ?l ?b ?u ?h0).2] |- _ =>
             lazymatch goal with
             | _ : same_object _ h0 (lookup c l b u h0).2 |- _ => fail
             | _ => pose proof (Kl c l b u h0)
             end
         | H : context [(dynamo_call_callback ?cb ?f ?l ?ce ?fs ?h0).2] |- _ =>
             lazymatch goal with
             | _ : same_object _ h0 (dynamo_call_callback cb f l ce fs h0).2
               |- _ => fail
             | _ => pose proof (Kc cb f l ce fs h0)
             end
         end.
  all: clear Kl Kc.
  all: unfold same_object in *; simpl in *.
  all: rewrite ?lookup_insert_eq in *.
  all: repeat match goal with
         | H : extra_states _ !! _ = _ |- _ => rewrite H in *
         end.
  all: repeat match goal with
         | H : decide _ = _ |- _ => clear H
         end.
  all: simpl in *; congruence.
Qed.

Lemma record_grows_refl c h h' t :
  extra_states h' = extra_states h -> record_grows c h h' t.
Proof.
  intros Hs. unfold record_grows, entries_of, frame_state_of. rewrite Hs.
  split; [|done]. exists []. split; [done|simpl; lia].
Qed.

Lemma record_grows_weaken c h h' t t' :
  compiler_invocations t <= compiler_invocations t' ->
  record_grows c h h' t -> record_grows c h h' t'.
Proof.
  intros Hle [(new & Hn & Hl) Hf]. split; [|done].
  exists new. split; [done|lia].
Qed.

Lemma record_grows_trans c h1 h2 h3 t1 t2 :
  record_grows c h1 h2 t1 -> record_grows c h2 h3 t2 ->
  record_grows c h1 h3 (t1 ++ t2).
Proof.
  intros [(n1 & Hn1 & Hl1) Hf1] [(n2 & Hn2 & Hl2) Hf2]. split.
  - exists (n2 ++ n1). rewrite Hn2, Hn1, <- (assoc_L (++)). split; [done|].
    rewrite length_app, compiler_invocations_app. lia.
  - by rewrite Hf2.
Qed.

(** The three writes of the dispatch to the store, seen from routine [c]. *)
Lemma record_grows_init c c0 a h h1 h' t :
  record_grows c h h1 t ->
  extra_states h1 !! c0 = None ->
  extra_states h' = <[c0 := fresh_extra_state a]> (extra_states h1) ->
  record_grows c h h' t.
Proof.
  intros Hg Hnone Hs.
  rewrite <- (app_nil_r t). eapply record_grows_trans; [exact Hg|].
  unfold record_grows, entries_of, frame_state_of. rewrite Hs.
  destruct (decide (c0 = c)) as [->|Hne].
  - rewrite lookup_insert_eq, Hnone. split; [by exists []|done].
  - rewrite lookup_insert_ne by done. split; [by exists []|done].
Qed.

Lemma record_grows_strategy c c0 e s h h1 h' t :
  record_grows c h h1 t ->
  extra_states h1 !! c0 = Some e ->
  extra_states h' = <[c0 := with_strategy s e]> (extra_states h1) ->
  record_grows c h h' t.
Proof.
  intros Hg He Hs.
  rewrite <- (app_nil_r t). eapply record_grows_trans; [exact Hg|].
  unfold record_grows, entries_of, frame_state_of. rewrite Hs.
  destruct (decide (c0 = c)) as [->|Hne].
  - rewrite lookup_insert_eq, He. split; [by exists []|done].
  - rewrite lookup_insert_ne by done. split; [by exists []|done].
Qed.

Lemma record_grows_entry c c0 e new h h1 h' t t' :
  record_grows c h h1 t ->
  extra_states h1 !! c0 = Some e ->
  extra_states h' = <[c0 := with_new_entry new e]> (extra_states h1) ->
  compiler_invocations t + 1 <= compiler_invocations t' ->
  record_grows c h h' t'.
Proof.
  intros [(n1 & Hn1 & Hl1) Hf1] He Hs Ht.
  unfold record_grows, entries_of, frame_state_of in *. rewrite Hs.
  destruct (decide (c0 = c)) as [->|Hne].
  - rewrite lookup_insert_eq. rewrite He in *. simpl. split; [|done].
    exists (new :: n1). rewrite Hn1. split; [done|]. simpl. lia.
  - rewrite lookup_insert_ne by done. split; [|done].
    exists n1. split; [done|lia].
Qed.

(** Solve [record_grows c h h' t] once the store of [h'] is known as a
    chain of insertions over the store of [h]. *)
Ltac grows_from h M :=
  lazymatch M with
  | extra_states h => apply record_grows_refl; reflexivity
  | <[?c0 := fresh_extra_state ?a]> ?M1 =>
      eapply (record_grows_init _ c0 a h (with_extra_states M1 h));
      [ grows_from h M1 | simpl; done | reflexivity ]
  | <[?c0 := with_strategy ?s ?e]> ?M1 =>
      eapply (record_grows_strategy _ c0 e s h (with_extra_states M1 h));
      [ grows_from h M1
      | simpl; rewrite ?lookup_insert_eq; done
      | reflexivity ]
  | <[?c0 := with_new_entry ?new ?e]> ?M1 =>
      eapply (record_grows_entry _ c0 e new h (with_extra_states M1 h) _ []);
      [ grows_from h M1
      | simpl; rewrite ?lookup_insert_eq; done
      | reflexivity
      | unfold compiler_invocations; simpl; lia ]
  end.

Lemma record_grows_store c h h1 h' t :
  extra_states h' = extra_states h1 ->
  record_grows c h h1 t -> record_grows c h h' t.
Proof.
  unfold record_grows, entries_of, frame_state_of. by intros ->.
Qed.

Lemma dispatch_record_grows frame throw_flag callback h :
  store_stable ->
  wp (dynamo__custom_eval_frame frame throw_flag callback) h
    (fun t o =>
       exists r h', o = Some (r, h') /\ forall c, record_grows c h h' t).
Proof.
  intros (Sd & Sc & Sl & Sk & Sf).
  unfold dynamo__custom_eval_frame.
  destruct (extra_states h !! F_CODE frame) as [e|] eqn:Hextra.
  all: wp_path ltac:(rewrite ?Sk, ?Sl; wp_simpl;
                     rewrite ?Hextra, ?lookup_insert_eq)
         ltac:(absurd_branch).
  all: eexists _, _; split;
    [first [reflexivity | apply f_equal, surjective_pairing]|].
  all: intros c.
  all: match goal with
       | |- record_grows _ _ ?hf ?t =>
           let M := fresh "M" in
           let HM := fresh "HM" in
           evar (M : gmap positive ExtraState);
           assert (extra_states hf = M) as HM
             by (repeat first
                   [ rewrite Sf | rewrite Sd | rewrite Sc | rewrite Sk
                   | rewrite Sl
                   | progress cbn [extra_states with_callback with_err
                                   with_extra_states update_extra] ];
                 subst M; reflexivity);
           subst M;
           lazymatch type of HM with
           | _ = ?M0 =>
               apply (record_grows_store c h (with_extra_states M0 h) hf t HM);
               grows_from h M0
           end
       end.
Qed.

(** X9: over any sequence of invocations, of any routines and under any
    callbacks, with collaborators that do not write the per-routine store:
    every invocation returns, and for every routine the cache entries it had
    are still there, in order, behind the new ones; there are at most as many
    new entries as compiler calls; and the frame state is unchanged. *)
Theorem X9_records_only_grow calls h :
  store_stable ->
  let run := run_invocations calls h in
  exists rs h',
    run.2 = Some (rs, h') /\
    length rs = length calls /\
    forall c, record_grows c h h' run.1.
Proof.
  intros Hst run. subst run.
  change (wp (run_invocations calls) h
    (fun t o =>
       exists rs h', o = Some (rs, h') /\ length rs = length calls /\
                     forall c, record_grows c h h' t)).
  revert h. induction calls as [|i calls IH]; intros h; simpl.
  - apply wp_ret. eexists _, _. split; [done|]. split; [done|].
    intros c. by apply record_grows_refl.
  - eapply wp_bind_post.
    + by apply dispatch_record_grows.
    + intros t1 (r & h1 & [=] & _).
    + intros t1 r h1 (r' & h1' & [= <- <-] & Hg1). simpl.
      eapply wp_bind_post; [apply IH|..].
      * intros t2 (rs & h2 & [=] & _).
      * intros t2 rs h2 (rs' & h2' & [= <- <-] & Hlen & Hg2).
        apply wp_ret. eexists _, _. split; [done|].
        split; [simpl; by rewrite Hlen|].
        intros c. rewrite app_nil_r.
        by eapply record_grows_trans.
Qed.


(** X11: an invocation makes at most one guard lookup, always for the
    frame's own routine, with the backend of the supplied callback, and with
    the callback register disabled.  It makes one exactly when the call is
    not unwinding, the fast path does not apply (the callback is not the
    run-only sentinel or the routine has a record), and the current action
    is not SKIP. *)
Theorem X11_when_lookup_happens frame throw_flag callback h :
  let tr := (dynamo__custom_eval_frame frame throw_flag callback h).1 in
  (forall c b a found,
      In (EvLookup c b a found) tr ->
      c = F_CODE frame /\ b = get_backend callback /\ a = Py_None)
  /\ count_events is_lookup tr <= 1
  /\ (count_events is_lookup tr = 1 <->
      throw_flag = false /\
      ~ (callback = Py_False /\ extra_states h !! F_CODE frame = None) /\
      cur_action (entry_strategy (F_CODE frame) h) <> SKIP).
Proof.
  intros tr. subst tr.
  change (wp (dynamo__custom_eval_frame frame throw_flag callback) h
    (fun t _ =>
       (forall c b a found,
           In (EvLookup c b a found) t ->
           c = F_CODE frame /\ b = get_backend callback /\ a = Py_None)
       /\ count_events is_lookup t <= 1
       /\ (count_events is_lookup t = 1 <->
           throw_flag = false /\
           ~ (callback = Py_False /\ extra_states h !! F_CODE frame = None) /\
           cur_action (entry_strategy (F_CODE frame) h) <> SKIP))).
  unfold dynamo__custom_eval_frame, entry_strategy.
  destruct (extra_states h !! F_CODE frame) as [e|] eqn:Hextra.
  all: wp_path ltac:(rewrite ?Hextra, ?lookup_insert_eq) ltac:(absurd_branch).
  all: unfold count_events; simpl.
  all: split; [intros ? ? ? ?; intuition congruence|].
  all: split; [lia|].
  all: split; [intros Hc; try discriminate Hc|intros (Ht & Hf & Hs)].
  all: try (repeat split; first [done | tauto | congruence]).
  all: try discriminate.
  all: try tauto.
  all: try (exfalso; apply Hf; split; [tauto | done]).
  all: split; [done|]; split; [intros [_ ?]; discriminate | done].
Qed.

End MoreProperties.

(** ** The further properties on the scripted world *)


(** Guard evaluation raises on the first call of routine 7. *)
Lemma X2_witness :
  dynamo__custom_eval_frame (H := world_guard_raises) frame1 false (PyObj 1)
    host0 =
    ([EvInitExtraState 7; EvCallbackSet Py_None;
      EvLookup 7 (PyObj 1) Py_None None; EvClearFrame frame1],
     Some (None, host1)).
Proof.
  assert (~ (PyObj 1 = Py_False /\ extra_states host0 !! F_CODE frame1 = None))
    as H1 by (intros [? _]; discriminate).
  assert (cur_action (entry_strategy (F_CODE frame1) host0) <> SKIP) as H2
    by discriminate.
  assert (guard_lookup (H := world_guard_raises) frame1 (PyObj 1) host0 =
            ((None, ""%string), host1)) as H3 by reflexivity.
  exact (X2_guard_failure (H := world_guard_raises) frame1 (PyObj 1) host0 _ _
           H1 H2 H3).
Defined.

(** First call with a compiler that delivers code: the compiled code runs
    once and the frame is retired once. *)
Lemma X3_witness :
  let run := dynamo__custom_eval_frame (H := world_compiles) frame1 false
               (PyObj 1) host0 in
  (count_events is_eval_default run.1 = 1 /\
   count_events is_eval_custom run.1 = 0 /\
   count_events is_clear_frame run.1 = 0)
  \/ (count_events is_eval_default run.1 = 0 /\
      count_events is_eval_custom run.1 <= 1 /\
      count_events is_clear_frame run.1 = 1 /\
      last run.1 = Some (EvClearFrame frame1) /\
      (count_events is_eval_custom run.1 = 0 -> Some (PyObj 50) = None)).
Proof.
  assert ((dynamo__custom_eval_frame (H := world_compiles) frame1 false
             (PyObj 1) host0).2 =
          Some (Some (PyObj 50), host_with (extra_with [entry50] default_default)))
    as H1 by reflexivity.
  exact (X3_one_exit (H := world_compiles) frame1 false (PyObj 1) host0 _ _ H1).
Defined.

(** The first intercepted call of routine 7 creates its record. *)
Lemma X4_witness :
  In (EvInitExtraState 7)
    (dynamo__custom_eval_frame (H := world_compiles) frame1 false (PyObj 1)
       host0).1.
Proof.
  assert (7%positive = F_CODE frame1 /\ false = false /\
          extra_states host0 !! F_CODE frame1 = None /\ PyObj 1 <> Py_False)
    as H1 by (repeat split; discriminate).
  exact (proj2 (X4_lazy_creation (H := world_compiles) frame1 false (PyObj 1)
                  host0 7%positive) H1).
Defined.

(** The compiler call of the first call of routine 7. *)
Lemma X5_witness :
  compiler_invocations
    (dynamo__custom_eval_frame (H := world_compiles) frame1 false (PyObj 1)
       host0).1 = 1
  /\ count_events is_lookup
       (dynamo__custom_eval_frame (H := world_compiles) frame1 false (PyObj 1)
          host0).1 = 1.
Proof.
  assert (In (EvCallCallback (PyObj 1) frame1 Py_None (Some (PyObj 50)))
            (dynamo__custom_eval_frame (H := world_compiles) frame1 false
               (PyObj 1) host0).1) as H1
    by (vm_compute; do 3 right; left; reflexivity).
  exact (proj2 (proj2 (proj2 (proj2 (proj2 (proj2
           (X5_compile_only_on_genuine_miss (H := world_compiles) frame1 false
              (PyObj 1) host0 _ _ _ _ H1))))))).
Defined.

(** The diagnostic of a miss under skip-guard-eval. *)
Lemma X7_witness :
  exists h',
    (dynamo__custom_eval_frame (H := world_compiles) frame1 false (PyObj 1)
       (host_unsafe (extra_with [] default_default))).2 = Some (None, h').
Proof.
  assert (In (EvErrSetString "RuntimeError" skip_guard_eval_unsafe_message)
            (dynamo__custom_eval_frame (H := world_compiles) frame1 false
               (PyObj 1) (host_unsafe (extra_with [] default_default))).1)
    as H1 by (vm_compute; do 2 right; left; reflexivity).
  exact (proj2 (proj2 (proj2 (proj2 (proj2 (proj2
           (X7_error_only_on_unsafe_miss (H := world_compiles) frame1 false
              (PyObj 1) _ _ _ H1))))))).
Defined.

(** The scripted lookup and compiler leave all records in place. *)
Lemma X8_witness :
  is_Some
    (dynamo__custom_eval_frame (H := world_compiles) frame1 false (PyObj 1)
       host0).2.
Proof.
  assert (keeps_record (H := world_compiles) (F_CODE frame1)) as K.
  { split.
    - intros c' l b u h. unfold same_object. simpl.
      repeat case_match; reflexivity.
    - intros cb frame l ce fs h. reflexivity. }
  exact (X8_returns_unless_record_destroyed (H := world_compiles) frame1 false
           (PyObj 1) host0 K).
Defined.

(** Compile, hit, hit in run-only mode: three results, and every record only
    gained entries in front. *)
Lemma X9_witness :
  exists rs h',
    (run_invocations (H := world_compiles) [call1; call1; call1_run_only]
       host0).2 = Some (rs, h') /\
    length rs = 3 /\
    forall c,
      record_grows c host0 h'
        (run_invocations (H := world_compiles) [call1; call1; call1_run_only]
           host0).1.
Proof.
  assert (store_stable (H := world_compiles)) as S.
  { repeat split; intros; try reflexivity.
    simpl. repeat case_match; reflexivity. }
  exact (X9_records_only_grow (H := world_compiles)
           [call1; call1; call1_run_only] host0 S).
Defined.


(** The first intercepted call of routine 7 makes one guard lookup. *)
Lemma X11_witness :
  count_events is_lookup
    (dynamo__custom_eval_frame (H := world_compiles) frame1 false (PyObj 1)
       host0).1 = 1.
Proof.
  assert (false = false /\
          ~ (PyObj 1 = Py_False /\ extra_states host0 !! F_CODE frame1 = None) /\
          cur_action (entry_strategy (F_CODE frame1) host0) <> SKIP) as H1
    by (repeat split; [intros [? _]; discriminate | discriminate]).
  exact (proj2 (proj2 (proj2 (X11_when_lookup_happens (H := world_compiles)
                                frame1 false (PyObj 1) host0))) H1).
Defined.
